(** * wayu: TUI box generator and validator (scripts/tui_box_generator.py)

    A shallow embedding of the box layout engine and of the visual width
    measurer, followed by the properties of the layout that the
    specification states.

    Conventions of the embedding:
    - a Python [str] is a list of Unicode code points ([pystr]); [len] counts
      code points;
    - a Python [int] is a [Z];
    - [" " * n] is [str_mul], which is the empty string for [n <= 0];
    - [for _ in range(n)] appending a fixed row is [repeat row (Z.to_nat n)];
    - [print] appends a [message] to an output log that the function returns
      beside its result. *)

From Stdlib Require Import ZArith NArith List Bool Lia Ascii.
From Stdlib Require String DecimalString.
From Equations Require Import Equations.
Import ListNotations.
Import String.StringSyntax.

Open Scope Z_scope.
Open Scope string_scope.
Open Scope list_scope.

(** ** Python strings *)

Definition codepoint := N.
Definition pystr := list codepoint.

(** An ASCII literal as a Python string. *)
Definition py (s : String.string) : pystr :=
  map N_of_ascii (String.list_ascii_of_string s).

Definition len {A : Type} (l : list A) : Z := Z.of_nat (length l).

(** [s * n] for a string [s] and an integer [n]. *)
Definition str_mul (s : pystr) (n : Z) : pystr := concat (repeat s (Z.to_nat n)).

(** [sep.join(parts)]. *)
Fixpoint str_join (sep : pystr) (parts : list pystr) : pystr :=
  match parts with
  | [] => []
  | [part] => part
  | part :: rest => part ++ sep ++ str_join sep rest
  end.

(** [str(n)] for an integer, as an f-string formats it: decimal digits, with
    a leading minus sign for a negative number. *)
Definition str_of_int (n : Z) : pystr :=
  py (DecimalString.NilZero.string_of_int (Z.to_int n)).

Fixpoint pystr_eqb (a b : pystr) : bool :=
  match a, b with
  | [], [] => true
  | x :: a', y :: b' => (x =? y)%N && pystr_eqb a' b'
  | _, _ => false
  end.

(** The characters the program names. *)
Definition ESC : codepoint := 27%N.        (* \x1b *)
Definition SPACE : codepoint := 32%N.
Definition LBRACKET : codepoint := 91%N.   (* [ *)
Definition LOWER_M : codepoint := 109%N.   (* m *)
Definition BOX_H : codepoint := 9472%N.    (* U+2500 horizontal *)
Definition BOX_V : codepoint := 9474%N.    (* U+2502 vertical *)
Definition BOX_TL : codepoint := 9484%N.   (* U+250C top-left corner *)
Definition BOX_TR : codepoint := 9488%N.   (* U+2510 top-right corner *)
Definition BOX_BL : codepoint := 9492%N.   (* U+2514 bottom-left corner *)
Definition BOX_BR : codepoint := 9496%N.   (* U+2518 bottom-right corner *)
Definition NEWLINE : codepoint := 10%N.
Definition A_ACUTE : codepoint := 225%N.   (* U+00E1 *)
Definition I_ACUTE : codepoint := 237%N.   (* U+00ED *)
Definition O_ACUTE : codepoint := 243%N.   (* U+00F3 *)
Definition TIMES : codepoint := 215%N.     (* U+00D7 multiplication sign *)
Definition CHECK_MARK : codepoint := 10003%N.  (* U+2713 *)
Definition BALLOT_X : codepoint := 10007%N.    (* U+2717 *)

(** ** The regular expression [\x1b\[[0-9;]*m] and [re.sub] with [''] *)

Module Re.

(** The character class [[0-9;]]. *)
Definition is_param (c : codepoint) : bool :=
  ((48 <=? c)%N && (c <=? 57)%N) || (c =? 59)%N.

(** [[0-9;]*m] at the start of [t]: the text after the match.  The star is
    greedy, and since [m] is outside the class, giving characters back
    never helps: the match is decided by the first character outside the
    class. *)
Fixpoint match_params (t : pystr) : option pystr :=
  match t with
  | [] => None
  | d :: t' =>
      if is_param d then match_params t'
      else if (d =? LOWER_M)%N then Some t' else None
  end.

(** The whole pattern at the start of [s]. *)
Definition match_sgr (s : pystr) : option pystr :=
  match s with
  | e :: b :: t =>
      if (e =? ESC)%N && (b =? LBRACKET)%N then match_params t else None
  | _ => None
  end.

Lemma match_params_shorter (t after : pystr) :
  match_params t = Some after -> (length after < length t)%nat.
Proof.
  revert after; induction t as [|d t IH]; intros after; simpl; [discriminate|].
  destruct (is_param d).
  - intros H; apply IH in H; lia.
  - destruct (d =? LOWER_M)%N; [|discriminate].
    intros H; injection H as <-; lia.
Qed.

Lemma match_sgr_shorter (s after : pystr) :
  match_sgr s = Some after -> (length after < length s)%nat.
Proof.
  destruct s as [|e [|b t]]; simpl; try discriminate.
  destruct ((e =? ESC)%N && (b =? LBRACKET)%N); [|discriminate].
  intros H; apply match_params_shorter in H; lia.
Qed.

Definition inspect {A : Type} (a : A) : {b : A | a = b} := exist _ a eq_refl.

(** [pattern.sub('', text)]: scan from the left; where the pattern matches,
    drop the match and go on after it; elsewhere keep the character and go
    on with the next one.  The output is not scanned again. *)
Equations? sub_empty (text : pystr) : pystr by wf (length text) lt :=
  sub_empty [] := [];
  sub_empty (c :: rest) with inspect (match_sgr (c :: rest)) => {
    | exist _ (Some after) _ := sub_empty after;
    | exist _ None _ := c :: sub_empty rest }.
Proof.
  all: try (simpl; lia).
  exact (match_sgr_shorter (c :: rest) after e).
Qed.

Lemma sub_empty_cons (c : codepoint) (rest : pystr) :
  sub_empty (c :: rest) =
  match match_sgr (c :: rest) with
  | Some after => sub_empty after
  | None => c :: sub_empty rest
  end.
Proof.
  simp sub_empty.
  generalize (inspect (match_sgr (c :: rest))).
  intros [[after|] e]; simp sub_empty; rewrite e; reflexivity.
Qed.

Example sub_empty_ex :
  sub_empty ([ESC; LBRACKET; 51; 49; LOWER_M] ++ py "Hi" ++ [ESC; LBRACKET; 48; LOWER_M])%N
  = py "Hi".
Proof. reflexivity. Qed.

End Re.

(** ** The wcwidth package

    [wcswidth] comes from the external [wcwidth] package, which the script
    imports when it is installed.  The package is not part of the
    repository, so its per-character table is a parameter of the model. *)

Module Wcwidth.

Section Wcswidth.

Variable wcwidth : codepoint -> Z.

(** Modelled from the spec: [wcswidth] of the [wcwidth] package, which is
    missing from the repository.  The width of a string is the sum of the
    widths of its characters (0 for combining and zero-width characters, 2
    for wide ones, 1 for the other printable ones), and the computation
    fails with -1 at the first control character. *)
Fixpoint wcswidth_from (width : Z) (pwcs : pystr) : Z :=
  match pwcs with
  | [] => width
  | char :: rest =>
      let wcw := wcwidth char in
      if wcw <? 0 then -1 else wcswidth_from (width + wcw) rest
  end.

Definition wcswidth (pwcs : pystr) : Z := wcswidth_from 0 pwcs.

End Wcswidth.

Definition in_range (lo hi c : N) : bool := ((lo <=? c) && (c <=? hi))%N.

(** A coarse instance of the package's table, to run the model on concrete
    inputs: C0 and C1 controls are -1; NUL, the combining diacritical marks
    and the zero-width formatting characters are 0; the main East Asian wide
    and emoji blocks are 2; everything else is 1. *)
Definition table (c : codepoint) : Z :=
  if (c =? 0)%N then 0
  else if ((c <? 32) || in_range 127 159 c)%N then -1
  else if in_range 768 879 c || in_range 8203 8207 c then 0
  else if in_range 4352 4447 c || in_range 11904 42191 c
          || in_range 44032 55203 c || in_range 63744 64255 c
          || in_range 65280 65376 c || in_range 127744 129535 c
          || in_range 131072 262141 c then 2
  else 1.

End Wcwidth.

(** ** The box *)

(** The attributes of a [TUIBox] object, set by [__init__]. *)
Record TUIBox := mkTUIBox {
  content_width : Z;
  padding_left : Z;
  padding_right : Z;
  padding_top : Z;
  padding_bottom : Z;
  border_width : Z;
  margin_left : Z;
  margin_right : Z;
  margin_top : Z;
  margin_bottom : Z
}.

(** [TUIBox()] with the default arguments of [__init__]. *)
Definition default_box : TUIBox := mkTUIBox 70 2 2 0 0 1 0 0 0 0.

(** What [print] writes in [validate_box]. *)
Inductive message :=
| NoLinesToValidate
| LineMismatch (line_no expected actual : Z) (content : pystr) (python_len : Z)
| AllLinesCorrect (count expected : Z).

(** The module-level state set at import time: whether
    [from wcwidth import wcswidth] succeeded, and the table of the package
    when it did (it is not consulted otherwise). *)
Class Platform := {
  HAS_WCWIDTH : bool;
  wcwidth : codepoint -> Z
}.

(** The package installed, with the coarse table. *)
Definition with_wcwidth : Platform :=
  {| HAS_WCWIDTH := true; wcwidth := Wcwidth.table |}.

(** The package missing: every width is a character count. *)
Definition without_wcwidth : Platform :=
  {| HAS_WCWIDTH := false; wcwidth := Wcwidth.table |}.

Section Box.

Context {platform : Platform}.

Definition wcswidth (pwcs : pystr) : Z := Wcwidth.wcswidth wcwidth pwcs.

Definition calculate_dimensions (self : TUIBox) : Z * Z :=
  let h_frame :=
    margin_left self + border_width self + padding_left self
    + padding_right self + border_width self + margin_right self in
  let v_frame :=
    margin_top self + border_width self + padding_top self
    + padding_bottom self + border_width self + margin_bottom self in
  (h_frame, v_frame).

Definition get_total_width (self : TUIBox) : Z :=
  let '(h_frame, _) := calculate_dimensions self in
  content_width self + h_frame.

Definition get_interior_width (self : TUIBox) : Z :=
  padding_left self + content_width self + padding_right self.

Definition get_visual_width (text : pystr) : Z :=
  let clean_text := Re.sub_empty text in
  if HAS_WCWIDTH then
    let width := wcswidth clean_text in
    if 0 <=? width then width else len clean_text
  else len clean_text.

Definition _render_empty_line (self : TUIBox) : pystr :=
  let interior_width := get_interior_width self in
  let margin := str_mul [SPACE] (margin_left self) in
  if 0 <? border_width self then
    margin ++ [BOX_V] ++ str_mul [SPACE] interior_width ++ [BOX_V]
  else
    str_mul [SPACE] (margin_left self + interior_width + margin_right self).

Definition _render_content_line (self : TUIBox) (content alignment : pystr)
  : pystr :=
  let visual_width := get_visual_width content in
  let content_padding := content_width self - visual_width in
  let aligned_content :=
    if pystr_eqb alignment (py "center") then
      let left_pad := content_padding / 2 in
      let right_pad := content_padding - left_pad in
      str_mul [SPACE] left_pad ++ content ++ str_mul [SPACE] right_pad
    else if pystr_eqb alignment (py "right") then
      str_mul [SPACE] content_padding ++ content
    else
      content ++ str_mul [SPACE] content_padding in
  let margin := str_mul [SPACE] (margin_left self) in
  let padding_left := str_mul [SPACE] (padding_left self) in
  let padding_right := str_mul [SPACE] (padding_right self) in
  if 0 <? border_width self then
    margin ++ [BOX_V] ++ padding_left ++ aligned_content ++ padding_right
    ++ [BOX_V]
  else
    margin ++ padding_left ++ aligned_content ++ padding_right.

Definition render (self : TUIBox) (lines : list pystr) (alignment : pystr)
  : list pystr :=
  let result := [] in
  let interior_width := get_interior_width self in
  (* Margin top *)
  let result := result ++ repeat [] (Z.to_nat (margin_top self)) in
  (* Top border *)
  let result :=
    if 0 <? border_width self then
      let margin := str_mul [SPACE] (margin_left self) in
      let border_line :=
        margin ++ [BOX_TL] ++ str_mul [BOX_H] interior_width ++ [BOX_TR] in
      result ++ [border_line]
    else result in
  (* Padding top *)
  let result :=
    result ++ repeat (_render_empty_line self) (Z.to_nat (padding_top self)) in
  (* Content lines *)
  let result :=
    result ++ map (fun line => _render_content_line self line alignment) lines in
  (* Padding bottom *)
  let result :=
    result ++ repeat (_render_empty_line self) (Z.to_nat (padding_bottom self)) in
  (* Bottom border *)
  let result :=
    if 0 <? border_width self then
      let margin := str_mul [SPACE] (margin_left self) in
      let border_line :=
        margin ++ [BOX_BL] ++ str_mul [BOX_H] interior_width ++ [BOX_BR] in
      result ++ [border_line]
    else result in
  (* Margin bottom *)
  let result := result ++ repeat [] (Z.to_nat (margin_bottom self)) in
  result.

(** The helper [get_width] nested in [validate_box]. *)
Definition get_width (text : pystr) : Z :=
  if HAS_WCWIDTH then
    let width := wcswidth text in
    if 0 <=? width then width else len text
  else len text.

(** The loop [for i, line in enumerate(lines)] of [validate_box], from index
    [i] on, threading [all_valid] and the printed output. *)
Fixpoint validate_loop (expected_width : Z) (i : Z) (lines : list pystr)
  (all_valid : bool) (out : list message) : bool * list message :=
  match lines with
  | [] => (all_valid, out)
  | line :: rest =>
      let actual_width := get_width line in
      if negb (actual_width =? expected_width) then
        validate_loop expected_width (i + 1) rest false
          (out ++ [LineMismatch (i + 1) expected_width actual_width line
                     (len line)])
      else validate_loop expected_width (i + 1) rest all_valid out
  end.

(** [validate_box]: the returned flag and what was printed. *)
Definition validate_box (lines : list pystr) (expected_width : option Z)
  : bool * list message :=
  match lines with
  | [] => (false, [NoLinesToValidate])
  | first :: _ =>
      let expected_width :=
        match expected_width with
        | None => get_width first
        | Some w => w
        end in
      let '(all_valid, out) := validate_loop expected_width 0 lines true [] in
      if all_valid then
        (all_valid, out ++ [AllLinesCorrect (len lines) expected_width])
      else (all_valid, out)
  end.

(** The line [generate_example] writes when the validation succeeds, and
    the one it writes when it fails. *)
Definition verdict_ok (total_width : Z) : pystr :=
  [CHECK_MARK] ++ py " Todas las l" ++ [I_ACUTE] ++ py "neas tienen "
  ++ str_of_int total_width ++ py " caracteres".

Definition verdict_error : pystr :=
  [BALLOT_X] ++ py " ERROR: Dimensiones incorrectas".

(** [generate_example]: the returned text and what [validate_box] printed on
    the way.  [box] is the object built from the keyword arguments in
    [config]. *)
Definition generate_example (name : pystr) (box : TUIBox) (lines : list pystr)
  : pystr * list message :=
  let rendered := render box lines (py "left") in
  let '(h_frame, v_frame) := calculate_dimensions box in
  let total_width := get_total_width box in
  let interior_width := get_interior_width box in
  let output := [] in
  let output := output ++ [py "### " ++ name] in
  let output := output ++ [[]] in
  let output := output ++ [py "**Configuraci" ++ [O_ACUTE] ++ py "n:**"] in
  let output :=
    output ++ [py "- Content width: " ++ str_of_int (content_width box)] in
  let output :=
    output ++ [(py "- Padding: left=" ++ str_of_int (padding_left box)
                ++ py ", right=" ++ str_of_int (padding_right box) ++ py ", ")
               ++ (py "top=" ++ str_of_int (padding_top box)
                   ++ py ", bottom=" ++ str_of_int (padding_bottom box))] in
  let output := output ++ [py "- Border: " ++ str_of_int (border_width box)] in
  let output := output ++ [[]] in
  let output := output ++ [py "**C" ++ [A_ACUTE] ++ py "lculo:**"] in
  let output := output ++ [py "```"] in
  let output :=
    output ++ [py "content_width = " ++ str_of_int (content_width box)] in
  let output :=
    output ++ [(py "interior_width = padding_left("
                ++ str_of_int (padding_left box) ++ py ") + ")
               ++ (py "content(" ++ str_of_int (content_width box)
                   ++ py ") + padding_right("
                   ++ str_of_int (padding_right box) ++ py ") = "
                   ++ str_of_int interior_width)] in
  let output :=
    output ++ [(py "h_frame = border(" ++ str_of_int (border_width box)
                ++ py ") + padding_left(" ++ str_of_int (padding_left box)
                ++ py ") + ")
               ++ (py "padding_right(" ++ str_of_int (padding_right box)
                   ++ py ") + border(" ++ str_of_int (border_width box)
                   ++ py ") = " ++ str_of_int h_frame)] in
  let output :=
    output ++ [py "total_width = content_width("
               ++ str_of_int (content_width box) ++ py ") + h_frame("
               ++ str_of_int h_frame ++ py ") = " ++ str_of_int total_width] in
  let output := output ++ [py "```"] in
  let output := output ++ [[]] in
  let output :=
    output ++ [py "**Render (" ++ str_of_int total_width ++ py " columnas "
               ++ [TIMES] ++ py " " ++ str_of_int (len rendered) ++ py " l"
               ++ [I_ACUTE] ++ py "neas):**"] in
  let output := output ++ [[]] in
  let output := output ++ [py "```"] in
  let output := output ++ rendered in
  let output := output ++ [py "```"] in
  let output := output ++ [[]] in
  let output := output ++ [py "**Verificaci" ++ [O_ACUTE] ++ py "n:**"] in
  let output := output ++ [py "```"] in
  let '(valid, printed) := validate_box rendered (Some total_width) in
  let output :=
    if valid then output ++ [verdict_ok total_width]
    else output ++ [verdict_error] in
  let output := output ++ [py "```"] in
  let output := output ++ [[]] in
  (str_join [NEWLINE] output, printed).

End Box.

(** ** Vocabulary of the statements *)

(** A [BoxConfig] in the sense of the specification: every field is a
    non-negative integer. *)
Definition well_formed (self : TUIBox) : Prop :=
  0 <= content_width self /\
  0 <= padding_left self /\ 0 <= padding_right self /\
  0 <= padding_top self /\ 0 <= padding_bottom self /\
  0 <= border_width self /\
  0 <= margin_left self /\ 0 <= margin_right self /\
  0 <= margin_top self /\ 0 <= margin_bottom self.

(** The characters [render] itself writes: the space and the six
    box-drawing glyphs. *)
Definition frame_chars : list codepoint :=
  [SPACE; BOX_H; BOX_V; BOX_TL; BOX_TR; BOX_BL; BOX_BR].

Definition is_frame_char (c : codepoint) : Prop := In c frame_chars.

(** A character that occupies one column wherever the package is used. *)
Definition narrow `{Platform} (c : codepoint) : Prop :=
  HAS_WCWIDTH = true -> wcwidth c = 1.

(** The package, when present, gives the space and the box-drawing glyphs
    one column each (in the package they are narrow: the space is printable
    ASCII and the box-drawing block is of ambiguous East Asian width, which
    the package counts as 1). *)
Definition frame_chars_narrow `{Platform} : Prop := Forall narrow frame_chars.

(** The vertical border glyph of a row, when the box has a border. *)
Definition side_border (self : TUIBox) : pystr :=
  if 0 <? border_width self then [BOX_V] else [].

(** Index of the first content row in the output of [render]. *)
Definition first_content_row (self : TUIBox) : nat :=
  let border_rows := if 0 <? border_width self then 1%nat else 0%nat in
  (Z.to_nat (margin_top self) + border_rows + Z.to_nat (padding_top self))%nat.

(** The slack of a content line. *)
Definition slack `{Platform} (self : TUIBox) (content : pystr) : Z :=
  content_width self - get_visual_width content.


Definition sgr_sequence (params : pystr) : pystr :=
  ESC :: LBRACKET :: params ++ [LOWER_M].






(** "\x1b[31mHi\x1b[0m" *)
Definition red_hi : pystr :=
  sgr_sequence (py "31") ++ py "Hi" ++ sgr_sequence (py "0").

(** A character that can take no part in a match of the pattern. *)
Definition inert (c : codepoint) : Prop :=
  c <> ESC /\ c <> LBRACKET /\ c <> LOWER_M /\ Re.is_param c = false.

(** Whether the package sees a control character in a text, and the sum of
    the widths of its characters. *)
Definition has_control `{Platform} (text : pystr) : bool :=
  existsb (fun c => wcwidth c <? 0) text.

Definition sum_width `{Platform} (text : pystr) : Z :=
  fold_right (fun c acc => wcwidth c + acc) 0 text.

(** The numbers of spaces [_render_content_line] asks for on the left and
    on the right of the content (a negative number gives no space). *)
Definition alignment_pads `{Platform} (self : TUIBox)
  (content alignment : pystr) : Z * Z :=
  let content_padding := slack self content in
  if pystr_eqb alignment (py "center") then
    (content_padding / 2, content_padding - content_padding / 2)
  else if pystr_eqb alignment (py "right") then (content_padding, 0)
  else (0, content_padding).

(** The border rows of [render]: one row when the box has a border, none
    otherwise. *)
Definition border_rows (self : TUIBox) (left right : codepoint) : list pystr :=
  if 0 <? border_width self then
    [str_mul [SPACE] (margin_left self) ++ [left]
     ++ str_mul [BOX_H] (get_interior_width self) ++ [right]]
  else [].

(** The rows above the content rows, and the rows below them. *)
Definition rows_above (self : TUIBox) : list pystr :=
  repeat [] (Z.to_nat (margin_top self))
  ++ border_rows self BOX_TL BOX_TR
  ++ repeat (_render_empty_line self) (Z.to_nat (padding_top self)).

Definition rows_below (self : TUIBox) : list pystr :=
  repeat (_render_empty_line self) (Z.to_nat (padding_bottom self))
  ++ border_rows self BOX_BL BOX_BR
  ++ repeat [] (Z.to_nat (margin_bottom self)).

(** The rows of [render] between the margin rows. *)
Definition box_rows `{Platform} (self : TUIBox) (lines : list pystr) (alignment : pystr)
  : list pystr :=
  border_rows self BOX_TL BOX_TR
  ++ repeat (_render_empty_line self) (Z.to_nat (padding_top self))
  ++ map (fun line => _render_content_line self line alignment) lines
  ++ repeat (_render_empty_line self) (Z.to_nat (padding_bottom self))
  ++ border_rows self BOX_BL BOX_BR.

(** The width the rows of a box share: margin, borders and interior. *)
Definition row_width (self : TUIBox) : Z :=
  margin_left self + 2 * len (side_border self) + get_interior_width self.

(** The width [validate_box] compares against. *)
Definition expected_or_first `{Platform} (lines : list pystr) (expected_width : option Z)
  : Z :=
  match expected_width with
  | Some w => w
  | None => get_width (hd [] lines)
  end.

(** The diagnostics of the loop for the lines numbered from [i + 1] on. *)
Fixpoint mismatches `{Platform} (expected_width : Z) (i : Z) (lines : list pystr)
  : list message :=
  match lines with
  | [] => []
  | line :: rest =>
      (if get_width line =? expected_width then []
       else [LineMismatch (i + 1) expected_width (get_width line) line
               (len line)])
      ++ mismatches expected_width (i + 1) rest
  end.

(** "Ejemplo 4: Caja con Padding" of [generate_all_examples]. *)
Definition padded_box : TUIBox := mkTUIBox 2 2 2 1 1 1 0 0 0 0.

(** A box five columns wide inside, without padding. *)
Definition narrow_box : TUIBox := mkTUIBox 5 0 0 0 0 1 0 0 0 0.

(** ** Strings *)

Lemma len_app {A : Type} (a b : list A) : len (a ++ b) = len a + len b.
Proof. unfold len. rewrite length_app. lia. Qed.

Lemma len_cons {A : Type} (x : A) (a : list A) : len (x :: a) = 1 + len a.
Proof. unfold len. simpl length. lia. Qed.

Lemma len_nil {A : Type} : len (@nil A) = 0.
Proof. reflexivity. Qed.

Lemma len_nonneg {A : Type} (a : list A) : 0 <= len a.
Proof. unfold len. lia. Qed.

Lemma len_repeat {A : Type} (x : A) (n : nat) : len (repeat x n) = Z.of_nat n.
Proof. unfold len. rewrite repeat_length. reflexivity. Qed.

Lemma len_map {A B : Type} (f : A -> B) (l : list A) : len (map f l) = len l.
Proof. unfold len. rewrite length_map. reflexivity. Qed.

Lemma str_mul_char (c : codepoint) (n : Z) :
  str_mul [c] n = repeat c (Z.to_nat n).
Proof.
  unfold str_mul. induction (Z.to_nat n) as [|k IH]; simpl; [reflexivity|].
  rewrite IH. reflexivity.
Qed.

Lemma str_mul_nonpos (s : pystr) (n : Z) : n <= 0 -> str_mul s n = [].
Proof.
  intros Hn. unfold str_mul. replace (Z.to_nat n) with 0%nat by lia.
  reflexivity.
Qed.

Lemma len_str_mul_char (c : codepoint) (n : Z) :
  len (str_mul [c] n) = Z.max 0 n.
Proof. rewrite str_mul_char, len_repeat. lia. Qed.

Lemma str_mul_char_all (P : codepoint -> Prop) (c : codepoint) (n : Z) :
  P c -> Forall P (str_mul [c] n).
Proof.
  intros Hc. rewrite str_mul_char. apply Forall_forall.
  intros x Hx. apply repeat_spec in Hx. subst x. exact Hc.
Qed.

Lemma pystr_eqb_eq (a b : pystr) : pystr_eqb a b = true <-> a = b.
Proof.
  revert b; induction a as [|x a IH]; intros [|y b]; simpl;
    try (split; [discriminate | congruence]); [tauto|].
  rewrite andb_true_iff, N.eqb_eq, IH. split.
  - intros [-> ->]; reflexivity.
  - intros H; injection H; auto.
Qed.

Create Rewrite HintDb len.
#[local] Hint Rewrite @len_app @len_cons @len_nil @len_repeat @len_map
  len_str_mul_char : len.

(** ** Escape sequences and the text around them *)

Lemma frame_char_inert (c : codepoint) : is_frame_char c -> inert c.
Proof.
  unfold is_frame_char, frame_chars. simpl.
  intros H; repeat destruct H as [<- | H]; try contradiction;
    repeat split; try discriminate; reflexivity.
Qed.

Lemma match_sgr_other (c : codepoint) (rest : pystr) :
  c <> ESC -> Re.match_sgr (c :: rest) = None.
Proof.
  intros Hc. destruct rest as [|b t]; simpl; [reflexivity|].
  apply N.eqb_neq in Hc. rewrite Hc. reflexivity.
Qed.

(** Text without ESC passes through [sub] unchanged, and the scan then
    goes on with what follows it. *)
Lemma sub_empty_app_l (a t : pystr) :
  ~ In ESC a -> Re.sub_empty (a ++ t) = a ++ Re.sub_empty t.
Proof.
  induction a as [|c a IH]; intros Ha; [reflexivity|].
  simpl app. rewrite Re.sub_empty_cons, match_sgr_other.
  - rewrite IH; [reflexivity|]. intros Hin; apply Ha; right; exact Hin.
  - intros ->; apply Ha; left; reflexivity.
Qed.

Lemma sub_empty_plain (a : pystr) : ~ In ESC a -> Re.sub_empty a = a.
Proof.
  intros Ha. rewrite <- (app_nil_r a) at 1.
  rewrite sub_empty_app_l by exact Ha.
  rewrite Re.sub_empty_equation_1. apply app_nil_r.
Qed.

Lemma match_params_app (t b : pystr) :
  Forall inert b ->
  Re.match_params (t ++ b) = option_map (fun r => r ++ b) (Re.match_params t).
Proof.
  intros Hb. induction t as [|d t IH]; simpl.
  - destruct Hb as [|x b [_ [_ [Hm Hp]]] _]; simpl; [reflexivity|].
    rewrite Hp. apply N.eqb_neq in Hm. rewrite Hm. reflexivity.
  - destruct (Re.is_param d); [exact IH|].
    destruct (d =? LOWER_M)%N; reflexivity.
Qed.

Lemma match_sgr_app (t b : pystr) :
  t <> [] -> Forall inert b ->
  Re.match_sgr (t ++ b) = option_map (fun r => r ++ b) (Re.match_sgr t).
Proof.
  intros Ht Hb. destruct t as [|e [|x t]]; [contradiction| |].
  - simpl. destruct Hb as [|x b [_ [Hx _]] _]; [reflexivity|].
    apply N.eqb_neq in Hx. rewrite Hx, andb_false_r. reflexivity.
  - simpl. destruct ((e =? ESC)%N && (x =? LBRACKET)%N); [|reflexivity].
    apply match_params_app; exact Hb.
Qed.

Lemma inert_no_esc (b : pystr) : Forall inert b -> ~ In ESC b.
Proof.
  intros Hb Hin. rewrite Forall_forall in Hb.
  destruct (Hb _ Hin) as [H _]. apply H; reflexivity.
Qed.

(** Inert text after [t] is out of reach of every match that starts in
    [t]: it passes through unchanged. *)
Lemma sub_empty_app_r (t b : pystr) :
  Forall inert b -> Re.sub_empty (t ++ b) = Re.sub_empty t ++ b.
Proof.
  intros Hb. remember (length t) as n eqn:Hn.
  revert t Hn. induction n as [n IH] using lt_wf_ind. intros t Hn.
  destruct t as [|c r].
  - simpl. rewrite Re.sub_empty_equation_1. simpl.
    apply sub_empty_plain, inert_no_esc, Hb.
  - change ((c :: r) ++ b) with (c :: (r ++ b)).
    rewrite !Re.sub_empty_cons.
    change (c :: (r ++ b)) with ((c :: r) ++ b).
    rewrite match_sgr_app by (discriminate || exact Hb).
    destruct (Re.match_sgr (c :: r)) as [after|] eqn:Hm; simpl.
    + apply Re.match_sgr_shorter in Hm.
      apply (IH (length after)); [lia | reflexivity].
    + f_equal. apply (IH (length r)); [simpl in Hn; lia | reflexivity].
Qed.





(** ** Widths *)

Section Widths.

Context {platform : Platform}.

Lemma wcswidth_from_spec (text : pystr) (width : Z) :
  Wcwidth.wcswidth_from wcwidth width text
  = if has_control text then -1 else width + sum_width text.
Proof.
  revert width; induction text as [|c text IH]; intros width; simpl.
  - lia.
  - destruct (wcwidth c <? 0); simpl; [reflexivity|].
    rewrite IH. destruct (has_control text); lia.
Qed.

Lemma wcswidth_spec (text : pystr) :
  wcswidth text = if has_control text then -1 else sum_width text.
Proof.
  unfold wcswidth, Wcwidth.wcswidth. rewrite wcswidth_from_spec.
  destruct (has_control text); reflexivity.
Qed.

Lemma sum_width_nonneg (text : pystr) :
  has_control text = false -> 0 <= sum_width text.
Proof.
  induction text as [|c text IH]; simpl; [lia|].
  intros H. apply orb_false_iff in H as [Hc Ht].
  apply Z.ltb_ge in Hc. specialize (IH Ht). lia.
Qed.

(** [get_width]: the sum of the character widths when the package is there
    and sees no control character, the character count otherwise. *)
Lemma get_width_spec (text : pystr) :
  get_width text
  = if HAS_WCWIDTH && negb (has_control text) then sum_width text
    else len text.
Proof.
  unfold get_width. destruct HAS_WCWIDTH; simpl; [|reflexivity].
  rewrite wcswidth_spec.
  destruct (has_control text) eqn:Hc; simpl; [reflexivity|].
  apply sum_width_nonneg in Hc. apply Z.leb_le in Hc. rewrite Hc. reflexivity.
Qed.

(** The measurer of the box is [get_width] after the escape sequences are
    dropped. *)
Lemma get_visual_width_sub (text : pystr) :
  get_visual_width text = get_width (Re.sub_empty text).
Proof. reflexivity. Qed.

Lemma get_width_nonneg (text : pystr) : 0 <= get_width text.
Proof.
  rewrite get_width_spec.
  destruct HAS_WCWIDTH; simpl; [|apply len_nonneg].
  destruct (has_control text) eqn:Hc; simpl;
    [apply len_nonneg | apply sum_width_nonneg, Hc].
Qed.

Lemma has_control_app (a b : pystr) :
  has_control (a ++ b) = has_control a || has_control b.
Proof. apply existsb_app. Qed.

Lemma sum_width_app (a b : pystr) :
  sum_width (a ++ b) = sum_width a + sum_width b.
Proof. induction a as [|c a IH]; simpl; [reflexivity|]. rewrite IH. lia. Qed.

Lemma narrow_text (a : pystr) :
  HAS_WCWIDTH = true -> Forall narrow a ->
  has_control a = false /\ sum_width a = len a.
Proof.
  intros Hw. induction 1 as [|c a Hc _ [IH1 IH2]]; simpl; [split; reflexivity|].
  rewrite (Hc Hw), IH1, IH2, len_cons. split; reflexivity.
Qed.

(** Narrow text around [t] adds its length to the width of [t]. *)
Lemma get_width_framed (a t b : pystr) :
  Forall narrow a -> Forall narrow b ->
  get_width (a ++ t ++ b) = len a + get_width t + len b.
Proof.
  intros Ha Hb. rewrite !get_width_spec.
  destruct HAS_WCWIDTH eqn:Hw; simpl.
  - destruct (narrow_text a Hw Ha) as [Ca Sa].
    destruct (narrow_text b Hw Hb) as [Cb Sb].
    rewrite !has_control_app, Ca, Cb, orb_false_r. simpl.
    destruct (has_control t); simpl.
    + rewrite !len_app. lia.
    + rewrite !sum_width_app. lia.
  - rewrite !len_app. lia.
Qed.

Lemma get_width_narrow (a : pystr) : Forall narrow a -> get_width a = len a.
Proof.
  intros Ha. rewrite get_width_spec.
  destruct HAS_WCWIDTH eqn:Hw; simpl; [|reflexivity].
  destruct (narrow_text a Hw Ha) as [-> ->]. reflexivity.
Qed.

Lemma frame_text_narrow (a : pystr) :
  frame_chars_narrow -> Forall is_frame_char a -> Forall narrow a.
Proof.
  unfold frame_chars_narrow. rewrite !Forall_forall.
  intros Hn Ha c Hc. apply Hn, Ha, Hc.
Qed.

Lemma frame_text_inert (a : pystr) :
  Forall is_frame_char a -> Forall inert a.
Proof. apply Forall_impl, frame_char_inert. Qed.

(** Frame text around a content adds its length to the visual width of the
    content: no escape sequence of the content reaches into it. *)
Lemma get_visual_width_framed (a t b : pystr) :
  frame_chars_narrow -> Forall is_frame_char a -> Forall is_frame_char b ->
  get_visual_width (a ++ t ++ b) = len a + get_visual_width t + len b.
Proof.
  intros Hn Ha Hb. rewrite !get_visual_width_sub.
  rewrite sub_empty_app_l by (apply inert_no_esc, frame_text_inert, Ha).
  rewrite sub_empty_app_r by (apply frame_text_inert, Hb).
  apply get_width_framed; apply frame_text_narrow; assumption.
Qed.

Lemma get_visual_width_frame (a : pystr) :
  frame_chars_narrow -> Forall is_frame_char a -> get_visual_width a = len a.
Proof.
  intros Hn Ha. rewrite get_visual_width_sub.
  rewrite sub_empty_plain by (apply inert_no_esc, frame_text_inert, Ha).
  apply get_width_narrow, frame_text_narrow; assumption.
Qed.

End Widths.

(** ** The shape of the rendered rows *)

Section Rows.

Context {platform : Platform}.

Lemma spaces_frame (n : Z) : Forall is_frame_char (str_mul [SPACE] n).
Proof. apply str_mul_char_all. left; reflexivity. Qed.

Lemma side_border_frame (self : TUIBox) :
  Forall is_frame_char (side_border self).
Proof.
  unfold side_border. destruct (0 <? border_width self); constructor;
    [|constructor]. right; right; left; reflexivity.
Qed.

Lemma len_side_border (self : TUIBox) :
  len (side_border self) = if 0 <? border_width self then 1 else 0.
Proof. unfold side_border. destruct (0 <? border_width self); reflexivity. Qed.

(** A content row is the content between two runs of frame characters. *)
Lemma render_content_line_shape (self : TUIBox) (content alignment : pystr) :
  _render_content_line self content alignment
  = (str_mul [SPACE] (margin_left self) ++ side_border self
     ++ str_mul [SPACE] (padding_left self)
     ++ str_mul [SPACE] (fst (alignment_pads self content alignment)))
    ++ content
    ++ (str_mul [SPACE] (snd (alignment_pads self content alignment))
        ++ str_mul [SPACE] (padding_right self) ++ side_border self).
Proof.
  unfold _render_content_line, alignment_pads, side_border, slack.
  destruct (pystr_eqb alignment (py "center"));
    [|destruct (pystr_eqb alignment (py "right"))];
    destruct (0 <? border_width self); cbn [fst snd];
    change (str_mul [SPACE] 0) with (@nil codepoint);
    repeat rewrite <- app_assoc; cbn [app]; rewrite ?app_nil_r; reflexivity.
Qed.

(** Whatever the alignment, the spaces it adds are the slack when the slack
    is positive, and none otherwise. *)
Lemma alignment_pads_total (self : TUIBox) (content alignment : pystr) :
  Z.max 0 (fst (alignment_pads self content alignment))
  + Z.max 0 (snd (alignment_pads self content alignment))
  = Z.max 0 (slack self content).
Proof.
  unfold alignment_pads.
  destruct (pystr_eqb alignment (py "center"));
    [|destruct (pystr_eqb alignment (py "right"))]; cbn [fst snd].
  all: generalize (slack self content); intros s; Z.div_mod_to_equations; lia.
Qed.

Lemma render_content_line_width (self : TUIBox) (content alignment : pystr) :
  frame_chars_narrow ->
  get_visual_width (_render_content_line self content alignment)
  = Z.max 0 (margin_left self)
    + 2 * len (side_border self)
    + Z.max 0 (padding_left self) + Z.max 0 (padding_right self)
    + Z.max 0 (slack self content) + get_visual_width content.
Proof.
  intros Hn. rewrite render_content_line_shape.
  rewrite get_visual_width_framed;
    repeat first [exact Hn | apply Forall_app; split | apply spaces_frame
                 | apply side_border_frame].
  autorewrite with len.
  pose proof (alignment_pads_total self content alignment). lia.
Qed.

Lemma render_empty_line_frame (self : TUIBox) :
  Forall is_frame_char (_render_empty_line self).
Proof.
  unfold _render_empty_line. destruct (0 <? border_width self).
  - repeat first [apply Forall_app; split | apply spaces_frame
                 | apply Forall_cons | apply Forall_nil].
    all: right; right; left; reflexivity.
  - apply spaces_frame.
Qed.

Lemma len_render_empty_line (self : TUIBox) :
  len (_render_empty_line self)
  = if 0 <? border_width self then
      Z.max 0 (margin_left self) + 2 + Z.max 0 (get_interior_width self)
    else
      Z.max 0 (margin_left self + get_interior_width self + margin_right self).
Proof.
  unfold _render_empty_line. destruct (0 <? border_width self);
    autorewrite with len; lia.
Qed.

Lemma border_rows_frame (self : TUIBox) (left right : codepoint) :
  is_frame_char left -> is_frame_char right ->
  Forall (fun row =>
            Forall is_frame_char row /\
            len row = Z.max 0 (margin_left self) + 2
                      + Z.max 0 (get_interior_width self))
    (border_rows self left right).
Proof.
  intros Hl Hr. unfold border_rows.
  destruct (0 <? border_width self); constructor; [|constructor]. split.
  - repeat first [apply Forall_app; split | apply spaces_frame
                 | apply Forall_cons | apply Forall_nil | assumption].
    apply str_mul_char_all. right; left; reflexivity.
  - autorewrite with len. lia.
Qed.

(** [render] lays out, from top to bottom: the margin rows, the top border,
    the padding rows, the content rows, the padding rows, the bottom border
    and the margin rows. *)
Lemma render_shape (self : TUIBox) (lines : list pystr) (alignment : pystr) :
  render self lines alignment
  = repeat [] (Z.to_nat (margin_top self))
    ++ (border_rows self BOX_TL BOX_TR
        ++ repeat (_render_empty_line self) (Z.to_nat (padding_top self))
        ++ map (fun line => _render_content_line self line alignment) lines
        ++ repeat (_render_empty_line self) (Z.to_nat (padding_bottom self))
        ++ border_rows self BOX_BL BOX_BR)
    ++ repeat [] (Z.to_nat (margin_bottom self)).
Proof.
  unfold render, border_rows. destruct (0 <? border_width self);
    cbn [app]; repeat rewrite <- app_assoc; cbn [app]; rewrite ?app_nil_r;
    reflexivity.
Qed.

Lemma nth_error_middle {A : Type} (above l below : list A) (n i : nat) :
  length above = n ->
  nth_error (above ++ l ++ below) (n + i) = nth_error (l ++ below) i.
Proof.
  intros <-. rewrite nth_error_app2 by lia. f_equal. lia.
Qed.

Lemma length_rows_above (self : TUIBox) :
  length (rows_above self) = first_content_row self.
Proof.
  unfold rows_above, first_content_row, border_rows.
  rewrite !length_app, !repeat_length.
  destruct (0 <? border_width self); simpl; lia.
Qed.

Lemma render_content_rows
  (self : TUIBox) (lines : list pystr) (alignment : pystr) :
  render self lines alignment
  = rows_above self
    ++ map (fun line => _render_content_line self line alignment) lines
    ++ rows_below self.
Proof.
  rewrite render_shape. unfold rows_above, rows_below.
  repeat rewrite <- app_assoc. reflexivity.
Qed.

End Rows.

(** ** Rows of one width *)

Section Uniform.

Context {platform : Platform}.

Lemma Forall_repeat {A : Type} (P : A -> Prop) (x : A) (n : nat) :
  P x -> Forall P (repeat x n).
Proof. intros Hx. induction n; simpl; constructor; assumption. Qed.

Lemma border_rows_width (self : TUIBox) (left right : codepoint) :
  frame_chars_narrow -> well_formed self ->
  is_frame_char left -> is_frame_char right ->
  Forall (fun row => get_visual_width row = row_width self
                     /\ Re.sub_empty row = row)
    (border_rows self left right).
Proof.
  intros Hn Hwf Hl Hr.
  pose proof (border_rows_frame self left right Hl Hr) as H.
  unfold row_width. rewrite len_side_border.
  unfold border_rows in *. destruct (0 <? border_width self); [|constructor].
  apply Forall_inv in H. destruct H as [Hf Hlen].
  constructor; [|constructor]. split.
  - rewrite get_visual_width_frame by assumption. rewrite Hlen.
    unfold well_formed, get_interior_width in *. lia.
  - apply sub_empty_plain, inert_no_esc, frame_text_inert, Hf.
Qed.

Lemma render_empty_line_width (self : TUIBox) :
  frame_chars_narrow -> well_formed self ->
  0 < border_width self \/ margin_right self = 0 ->
  get_visual_width (_render_empty_line self) = row_width self
  /\ Re.sub_empty (_render_empty_line self) = _render_empty_line self.
Proof.
  intros Hn Hwf Hb. pose proof (render_empty_line_frame self) as Hf. split.
  - rewrite get_visual_width_frame by assumption.
    rewrite len_render_empty_line. unfold row_width.
    rewrite len_side_border.
    unfold well_formed, get_interior_width in *.
    destruct (0 <? border_width self) eqn:E; [lia|].
    apply Z.ltb_ge in E. lia.
  - apply sub_empty_plain, inert_no_esc, frame_text_inert, Hf.
Qed.

Lemma render_content_line_fits (self : TUIBox) (line alignment : pystr) :
  frame_chars_narrow -> well_formed self ->
  get_visual_width line <= content_width self ->
  get_visual_width (_render_content_line self line alignment) = row_width self.
Proof.
  intros Hn Hwf Hfit. rewrite render_content_line_width by exact Hn.
  unfold row_width, slack, well_formed, get_interior_width in *. lia.
Qed.

Lemma render_content_line_clean (self : TUIBox) (line alignment : pystr) :
  Re.sub_empty line = line ->
  Re.sub_empty (_render_content_line self line alignment)
  = _render_content_line self line alignment.
Proof.
  intros Hc. rewrite render_content_line_shape.
  rewrite sub_empty_app_l, sub_empty_app_r, Hc; [reflexivity| |].
  - apply frame_text_inert.
    repeat first [apply Forall_app; split | apply spaces_frame
                 | apply side_border_frame].
  - apply inert_no_esc, frame_text_inert.
    repeat first [apply Forall_app; split | apply spaces_frame
                 | apply side_border_frame].
Qed.

(** Every row between the margin rows has the width [row_width], as long as
    no content line overflows. *)
Lemma box_rows_width (self : TUIBox) (lines : list pystr) (alignment : pystr) :
  frame_chars_narrow -> well_formed self ->
  0 < border_width self \/ margin_right self = 0 ->
  Forall (fun line => get_visual_width line <= content_width self) lines ->
  Forall (fun row => get_visual_width row = row_width self)
    (box_rows self lines alignment).
Proof.
  intros Hn Hwf Hb Hfit. unfold box_rows.
  assert (Hborder : forall l r, is_frame_char l -> is_frame_char r ->
            Forall (fun row => get_visual_width row = row_width self)
              (border_rows self l r)).
  { intros l r Hl Hr.
    eapply Forall_impl; [|apply (border_rows_width self l r); assumption].
    intros row [H _]; exact H. }
  pose proof (render_empty_line_width self Hn Hwf Hb) as [He _].
  repeat (apply Forall_app; split).
  - apply Hborder; unfold is_frame_char, frame_chars; simpl; tauto.
  - apply Forall_repeat, He.
  - rewrite Forall_map. eapply Forall_impl; [|exact Hfit].
    intros line Hl. apply render_content_line_fits; assumption.
  - apply Forall_repeat, He.
  - apply Hborder; unfold is_frame_char, frame_chars; simpl; tauto.
Qed.

(** Without escape sequences in the content, none appears in the rows. *)
Lemma box_rows_clean (self : TUIBox) (lines : list pystr) (alignment : pystr) :
  frame_chars_narrow -> well_formed self ->
  0 < border_width self \/ margin_right self = 0 ->
  Forall (fun line => Re.sub_empty line = line) lines ->
  Forall (fun row => Re.sub_empty row = row) (box_rows self lines alignment).
Proof.
  intros Hn Hwf Hb Hclean. unfold box_rows.
  assert (Hborder : forall l r, is_frame_char l -> is_frame_char r ->
            Forall (fun row => Re.sub_empty row = row) (border_rows self l r)).
  { intros l r Hl Hr.
    eapply Forall_impl; [|apply (border_rows_width self l r); assumption].
    intros row [_ H]; exact H. }
  pose proof (render_empty_line_width self Hn Hwf Hb) as [_ He].
  repeat (apply Forall_app; split).
  - apply Hborder; unfold is_frame_char, frame_chars; simpl; tauto.
  - apply Forall_repeat, He.
  - rewrite Forall_map. eapply Forall_impl; [|exact Hclean].
    intros line Hl. apply render_content_line_clean; assumption.
  - apply Forall_repeat, He.
  - apply Hborder; unfold is_frame_char, frame_chars; simpl; tauto.
Qed.

Lemma render_box_rows (self : TUIBox) (lines : list pystr) (alignment : pystr) :
  render self lines alignment
  = repeat [] (Z.to_nat (margin_top self))
    ++ box_rows self lines alignment
    ++ repeat [] (Z.to_nat (margin_bottom self)).
Proof. apply render_shape. Qed.

End Uniform.

(** ** Validation *)

Section Validation.

Context {platform : Platform}.

Lemma validate_loop_spec (expected_width : Z) (lines : list pystr) :
  forall (i : Z) (all_valid : bool) (out : list message),
  validate_loop expected_width i lines all_valid out
  = (all_valid && forallb (fun line => get_width line =? expected_width) lines,
     out ++ mismatches expected_width i lines).
Proof.
  induction lines as [|line rest IH]; intros i all_valid out; simpl.
  - rewrite andb_true_r, app_nil_r. reflexivity.
  - destruct (get_width line =? expected_width); simpl; rewrite IH.
    + reflexivity.
    + rewrite andb_false_r, <- app_assoc. reflexivity.
Qed.

Lemma validate_box_spec (lines : list pystr) (expected_width : option Z) :
  validate_box lines expected_width
  = match lines with
    | [] => (false, [NoLinesToValidate])
    | _ :: _ =>
        let w := expected_or_first lines expected_width in
        if forallb (fun line => get_width line =? w) lines
        then (true, [AllLinesCorrect (len lines) w])
        else (false, mismatches w 0 lines)
    end.
Proof.
  destruct lines as [|first rest]; [reflexivity|].
  unfold validate_box. rewrite validate_loop_spec.
  replace (match expected_width with
           | Some w => w
           | None => get_width first
           end)
    with (expected_or_first (first :: rest) expected_width)
    by (destruct expected_width; reflexivity).
  cbv zeta. rewrite andb_true_l.
  destruct (forallb _ (first :: rest)) eqn:Hall; [|reflexivity].
  cbn [app]. f_equal.
  assert (Hno : forall ls i,
            forallb (fun line =>
                       get_width line
                       =? expected_or_first (first :: rest) expected_width)
              ls = true ->
            mismatches (expected_or_first (first :: rest) expected_width) i ls
            = []).
  { induction ls as [|l ls IHls]; intros i; simpl; [reflexivity|].
    intros H. apply andb_true_iff in H as [H1 H2]. rewrite H1. simpl.
    apply IHls, H2. }
  rewrite Hno by exact Hall. reflexivity.
Qed.

(** [validate_box] answers [True] exactly for a non-empty input all of whose
    lines have the expected width under [get_width]. *)
Lemma validate_box_true_iff (lines : list pystr) (expected_width : option Z) :
  fst (validate_box lines expected_width) = true
  <-> lines <> [] /\
      Forall (fun line =>
                get_width line = expected_or_first lines expected_width) lines.
Proof.
  rewrite validate_box_spec. destruct lines as [|first rest].
  - simpl. split; [discriminate | intros [H _]; contradiction].
  - cbv zeta.
    destruct (forallb _ (first :: rest)) eqn:Hall; simpl fst.
    + split; [intros _|reflexivity]. split; [discriminate|].
      rewrite forallb_forall in Hall. apply Forall_forall.
      intros l Hl. apply Z.eqb_eq, Hall, Hl.
    + split; [discriminate|]. intros [_ H].
      rewrite Forall_forall in H.
      assert (Ht : forallb
                (fun line =>
                   get_width line
                   =? expected_or_first (first :: rest) expected_width)
                (first :: rest) = true).
      { apply forallb_forall. intros l Hl. apply Z.eqb_eq, H, Hl. }
      rewrite Ht in Hall. discriminate.
Qed.

(** What the loop prints: one diagnostic per line whose width differs, with
    the number of the line (counted from 1), the expected width and the
    width found. *)
Lemma mismatches_spec (expected_width : Z) (lines : list pystr) (i : Z)
  (n e a : Z) (content : pystr) (l : Z) :
  In (LineMismatch n e a content l) (mismatches expected_width i lines)
  <-> exists k : nat,
        nth_error lines k = Some content /\ n = i + Z.of_nat k + 1 /\
        e = expected_width /\ a = get_width content /\ a <> expected_width /\
        l = len content.
Proof.
  revert i; induction lines as [|line rest IH]; intros i; simpl.
  - split; [contradiction|]. intros [[|k] [H _]]; discriminate.
  - rewrite in_app_iff, IH. split.
    + intros [H | [k [Hk [Hn H]]]].
      * destruct (get_width line =? expected_width) eqn:E; [contradiction|].
        destruct H as [H|[]]. injection H as <- <- <- <- <-.
        exists 0%nat. apply Z.eqb_neq in E.
        repeat split; try reflexivity; [lia | exact E].
      * exists (S k). simpl. repeat split; try tauto. lia.
    + intros [[|k] [Hk [Hn [He [Ha [Hne Hl]]]]]]; simpl in Hk.
      * injection Hk as ->. left. subst.
        apply Z.eqb_neq in Hne. rewrite Hne. left. f_equal. lia.
      * right. exists k. repeat split; try assumption. lia.
Qed.

End Validation.

(** ** Properties of the layout engine *)

Section Properties.

Context {platform : Platform}.

(** C3. The total width of a box is
    content_width + 2*border_width + padding_left + padding_right
    + margin_left + margin_right.  The equation holds for all integer
    fields, the non-negative ones in particular. *)
Theorem total_width_formula (self : TUIBox) :
  get_total_width self
  = content_width self + 2 * border_width self + padding_left self
    + padding_right self + margin_left self + margin_right self.
Proof. unfold get_total_width, calculate_dimensions. lia. Qed.

(** C1, amended.  For a box with non-negative fields, a border width of at
    most 1 and no right margin, and content lines none of which is wider
    than content_width, the output of render is margin_top empty rows, then
    rows that all have visual width total_width (the border rows, the
    padding rows and the content rows), then margin_bottom empty rows.  The
    margin rows are empty strings, of visual width 0. *)
Theorem render_rows_total_width
  (self : TUIBox) (lines : list pystr) (alignment : pystr) :
  frame_chars_narrow -> well_formed self ->
  border_width self <= 1 -> margin_right self = 0 ->
  Forall (fun line => get_visual_width line <= content_width self) lines ->
  exists rows : list pystr,
    render self lines alignment
    = repeat [] (Z.to_nat (margin_top self)) ++ rows
      ++ repeat [] (Z.to_nat (margin_bottom self))
    /\ Forall (fun row => get_visual_width row = get_total_width self) rows
    /\ get_visual_width [] = 0.
Proof.
  intros Hn Hwf Hb Hmr Hfit. exists (box_rows self lines alignment).
  split; [apply render_box_rows|]. split.
  - eapply Forall_impl;
      [|apply box_rows_width; [exact Hn | exact Hwf | right; exact Hmr
                              | exact Hfit]].
    intros row ->. rewrite total_width_formula.
    unfold row_width, get_interior_width. rewrite len_side_border.
    destruct (0 <? border_width self) eqn:E;
      [apply Z.ltb_lt in E | apply Z.ltb_ge in E];
      destruct Hwf as (_ & _ & _ & _ & _ & Hbw & _); lia.
  - unfold get_visual_width. rewrite Re.sub_empty_equation_1.
    destruct HAS_WCWIDTH; reflexivity.
Qed.

(** C5. Under center alignment a content line with non-negative slack gets
    left_pad = slack // 2 spaces before it and slack - left_pad spaces after
    it, inside the padding and the borders; the two runs add up to the
    slack, the right one is never shorter and at most one longer, and for
    an odd slack it is longer by exactly one. *)
Theorem center_alignment_split (self : TUIBox) (content : pystr) :
  0 <= slack self content ->
  let left_pad := slack self content / 2 in
  let right_pad := slack self content - left_pad in
  _render_content_line self content (py "center")
  = str_mul [SPACE] (margin_left self) ++ side_border self
    ++ str_mul [SPACE] (padding_left self)
    ++ (repeat SPACE (Z.to_nat left_pad) ++ content
        ++ repeat SPACE (Z.to_nat right_pad))
    ++ str_mul [SPACE] (padding_right self) ++ side_border self
  /\ 0 <= left_pad <= right_pad
  /\ left_pad + right_pad = slack self content
  /\ (Z.odd (slack self content) = true -> right_pad = left_pad + 1).
Proof.
  intros Hs left_pad right_pad. split; [|split; [|split]].
  - rewrite render_content_line_shape.
    unfold alignment_pads. cbn [pystr_eqb py map String.list_ascii_of_string].
    replace (pystr_eqb (py "center") (py "center")) with true by reflexivity.
    cbn [fst snd]. fold left_pad. fold right_pad. rewrite !str_mul_char.
    repeat rewrite <- app_assoc. reflexivity.
  - subst left_pad right_pad. Z.div_mod_to_equations. lia.
  - subst left_pad right_pad. lia.
  - intros Hodd. subst left_pad right_pad.
    rewrite Z.odd_spec in Hodd. destruct Hodd as [k Hk].
    Z.div_mod_to_equations. lia.
Qed.

(** C7, amended.  A content line wider than content_width is neither
    clamped, truncated nor rejected: in every box and under every alignment
    its row is the line itself between the padding and the borders, with no
    alignment space.  In a box with non-negative fields, a border width of at
    most 1 and no right margin, the visual width of that row is total_width
    plus the overflow. *)
Theorem overflow_passes_through
  (self : TUIBox) (content alignment : pystr) :
  content_width self < get_visual_width content ->
  _render_content_line self content alignment
  = str_mul [SPACE] (margin_left self) ++ side_border self
    ++ str_mul [SPACE] (padding_left self) ++ content
    ++ str_mul [SPACE] (padding_right self) ++ side_border self
  /\ (frame_chars_narrow -> well_formed self ->
      border_width self <= 1 -> margin_right self = 0 ->
      get_visual_width (_render_content_line self content alignment)
      = get_total_width self
        + (get_visual_width content - content_width self)).
Proof.
  intros Hover. split.
  - rewrite render_content_line_shape.
    pose proof (alignment_pads_total self content alignment) as Hp.
    assert (Hneg : slack self content < 0) by (unfold slack; lia).
    rewrite (str_mul_nonpos _ (fst _)) by lia.
    rewrite (str_mul_nonpos _ (snd _)) by lia.
    rewrite app_nil_r. repeat rewrite <- app_assoc. reflexivity.
  - intros Hn Hwf Hb Hmr.
    rewrite render_content_line_width by exact Hn.
    rewrite total_width_formula, len_side_border.
    unfold slack, well_formed in *.
    destruct (0 <? border_width self) eqn:E;
      [apply Z.ltb_lt in E | apply Z.ltb_ge in E]; lia.
Qed.

(** C8. The row of render for the i-th content line holds the line verbatim,
    escape sequences included, between two runs made of spaces and the
    vertical border glyph only; the escape sequences only count out of the
    width from which the number of alignment spaces is computed. *)
Theorem content_preserved_verbatim
  (self : TUIBox) (lines : list pystr) (alignment : pystr)
  (i : nat) (line : pystr) :
  nth_error lines i = Some line ->
  exists before after : pystr,
    nth_error (render self lines alignment) (first_content_row self + i)
    = Some (before ++ line ++ after)
    /\ Forall (fun c => c = SPACE \/ c = BOX_V) (before ++ after)
    /\ len before + len after
       = Z.max 0 (margin_left self) + 2 * len (side_border self)
         + Z.max 0 (padding_left self) + Z.max 0 (padding_right self)
         + Z.max 0 (content_width self - get_visual_width line).
Proof.
  intros Hi.
  exists (str_mul [SPACE] (margin_left self) ++ side_border self
          ++ str_mul [SPACE] (padding_left self)
          ++ str_mul [SPACE] (fst (alignment_pads self line alignment))),
         (str_mul [SPACE] (snd (alignment_pads self line alignment))
          ++ str_mul [SPACE] (padding_right self) ++ side_border self).
  split; [|split].
  - rewrite <- render_content_line_shape.
    rewrite render_content_rows, nth_error_middle
      by (apply length_rows_above).
    rewrite nth_error_app1
      by (rewrite length_map; apply nth_error_Some; congruence).
    rewrite nth_error_map, Hi. reflexivity.
  - assert (Hside : Forall (fun c => c = SPACE \/ c = BOX_V) (side_border self)).
    { unfold side_border. destruct (0 <? border_width self);
        [apply Forall_cons; [right; reflexivity|]|]; apply Forall_nil. }
    repeat first [apply Forall_app; split | exact Hside
                 | apply str_mul_char_all; left; reflexivity].
  - autorewrite with len.
    pose proof (alignment_pads_total self line alignment). unfold slack in *.
    lia.
Qed.

(** C10. For a box with non-negative fields the number of rows of render is
    margin_top + padding_top + the number of content lines + padding_bottom
    + margin_bottom, plus 2 when border_width > 0 and plus 0 otherwise: a
    border_width above 1 still gives one top and one bottom border row. *)
Theorem render_row_count
  (self : TUIBox) (lines : list pystr) (alignment : pystr) :
  well_formed self ->
  len (render self lines alignment)
  = margin_top self + padding_top self + len lines + padding_bottom self
    + margin_bottom self + (if 0 <? border_width self then 2 else 0).
Proof.
  intros Hwf. rewrite render_shape. unfold border_rows.
  unfold well_formed in Hwf.
  destruct (0 <? border_width self); autorewrite with len; lia.
Qed.

(** C9. get_visual_width is a total function whose result is never negative,
    and when wcswidth reports a control character in the text left after the
    escape sequences are dropped (a negative result, which happens exactly
    when some character of that text has a negative width), the result is the
    number of characters of that text.  The same count is the result when the
    package is missing. *)
Theorem visual_width_nonneg_fallback (text : pystr) :
  0 <= get_visual_width text
  /\ (wcswidth (Re.sub_empty text) < 0 ->
      get_visual_width text = len (Re.sub_empty text))
  /\ (wcswidth (Re.sub_empty text) < 0
      <-> exists c, In c (Re.sub_empty text) /\ wcwidth c < 0)
  /\ (HAS_WCWIDTH = false -> get_visual_width text = len (Re.sub_empty text)).
Proof.
  split; [|split; [|split]].
  - rewrite get_visual_width_sub. apply get_width_nonneg.
  - intros Hneg. unfold get_visual_width.
    destruct HAS_WCWIDTH; [|reflexivity].
    cbv zeta. apply Z.leb_gt in Hneg. rewrite Hneg. reflexivity.
  - rewrite wcswidth_spec.
    destruct (has_control (Re.sub_empty text)) eqn:Hc.
    + split; [intros _|lia].
      unfold has_control in Hc. apply existsb_exists in Hc.
      destruct Hc as [c [Hin Hlt]]. exists c. split; [exact Hin|].
      apply Z.ltb_lt, Hlt.
    + split.
      * intros Hneg. apply sum_width_nonneg in Hc. lia.
      * intros [c [Hin Hlt]].
        assert (Ht : has_control (Re.sub_empty text) = true).
        { apply existsb_exists. exists c. split; [exact Hin|].
          apply Z.ltb_lt, Hlt. }
        congruence.
  - intros Hw. unfold get_visual_width. rewrite Hw. reflexivity.
Qed.


(** C2, amended.  For a box with non-negative fields and no top or bottom
    margin, which has a border or no right margin, and content lines that do
    not overflow content_width and hold no escape sequence (validate_box
    measures a row without dropping them), validate_box answers True on the
    output of render with no expected width, as long as render emits a row at
    all. *)
Theorem validate_render_round_trip
  (self : TUIBox) (lines : list pystr) (alignment : pystr) :
  frame_chars_narrow -> well_formed self ->
  margin_top self = 0 -> margin_bottom self = 0 ->
  0 < border_width self \/ margin_right self = 0 ->
  Forall (fun line => get_visual_width line <= content_width self
                      /\ Re.sub_empty line = line) lines ->
  render self lines alignment <> [] ->
  fst (validate_box (render self lines alignment) None) = true.
Proof.
  intros Hn Hwf Hmt Hmb Hb Hlines Hne.
  assert (Hfit : Forall (fun line => get_visual_width line <= content_width self)
                   lines)
    by (eapply Forall_impl; [|exact Hlines]; intros l [H _]; exact H).
  assert (Hclean : Forall (fun line => Re.sub_empty line = line) lines)
    by (eapply Forall_impl; [|exact Hlines]; intros l [_ H]; exact H).
  assert (Hrender : render self lines alignment = box_rows self lines alignment).
  { rewrite render_box_rows, Hmt, Hmb. simpl. apply app_nil_r. }
  rewrite Hrender in *.
  assert (Hw : Forall (fun row => get_width row = row_width self)
                 (box_rows self lines alignment)).
  { pose proof (box_rows_width self lines alignment Hn Hwf Hb Hfit) as H1.
    pose proof (box_rows_clean self lines alignment Hn Hwf Hb Hclean) as H2.
    rewrite Forall_forall in *. intros row Hrow.
    rewrite <- (H1 row Hrow), get_visual_width_sub, (H2 row Hrow).
    reflexivity. }
  apply validate_box_true_iff. split; [exact Hne|].
  destruct (box_rows self lines alignment) as [|first rest]; [contradiction|].
  unfold expected_or_first. cbn [hd].
  rewrite (Forall_inv Hw). exact Hw.
Qed.

End Properties.

(** ** Further properties: validation *)

Section ValidationProperties.

Context {platform : Platform}.

Lemma validate_box_fst (lines : list pystr) (expected_width : option Z) :
  fst (validate_box lines expected_width)
  = match lines with
    | [] => false
    | _ :: _ =>
        forallb (fun line =>
                   get_width line =? expected_or_first lines expected_width)
          lines
    end.
Proof.
  rewrite validate_box_spec. destruct lines as [|first rest]; [reflexivity|].
  cbv zeta. destruct (forallb _ (first :: rest)); reflexivity.
Qed.

Lemma mismatches_length (w i : Z) (lines : list pystr) :
  len (mismatches w i lines)
  = len (filter (fun line => negb (get_width line =? w)) lines).
Proof.
  revert i; induction lines as [|line rest IH]; intros i;
    cbn [mismatches filter]; [reflexivity|].
  rewrite len_app, IH.
  destruct (get_width line =? w); cbn [negb];
    rewrite ?len_cons, ?len_nil; lia.
Qed.

(** X1. validate_box answers True exactly when its input is not empty and
    every line has, under its helper get_width, the expected width: the one
    passed, or else the width of the first line. *)
Theorem validate_box_accepts_iff
  (lines : list pystr) (expected_width : option Z) :
  fst (validate_box lines expected_width) = true
  <-> exists (first : pystr) (rest : list pystr),
        lines = first :: rest
        /\ Forall (fun line =>
                     get_width line
                     = match expected_width with
                       | Some w => w
                       | None => get_width first
                       end) lines.
Proof.
  rewrite validate_box_true_iff. split.
  - intros [Hne Hall]. destruct lines as [|first rest]; [contradiction|].
    exists first, rest. split; [reflexivity|].
    destruct expected_width; exact Hall.
  - intros (first & rest & -> & Hall). split; [discriminate|].
    destruct expected_width; exact Hall.
Qed.

(** X2. What validate_box prints.  For an empty input, the one message that
    there is nothing to validate; on success, the one summary with the
    number of lines and the width; on failure, one diagnostic for each line
    whose width differs and no other: it carries the number of the line
    counted from 1, the expected width, the width found, the line and its
    length. *)
Theorem validate_box_diagnostics
  (lines : list pystr) (expected_width : option Z) :
  let w := expected_or_first lines expected_width in
  let out := snd (validate_box lines expected_width) in
  (lines = [] -> out = [NoLinesToValidate])
  /\ (fst (validate_box lines expected_width) = true ->
      out = [AllLinesCorrect (len lines) w])
  /\ (forall (n e a : Z) (content : pystr) (l : Z),
        In (LineMismatch n e a content l) out
        <-> exists k : nat,
              nth_error lines k = Some content /\ n = Z.of_nat k + 1
              /\ e = w /\ a = get_width content /\ a <> w
              /\ l = len content)
  /\ (lines <> [] -> fst (validate_box lines expected_width) = false ->
      len out = len (filter (fun line => negb (get_width line =? w)) lines)).
Proof.
  cbv zeta. rewrite validate_box_spec.
  destruct lines as [|first rest].
  - repeat split; try discriminate; try contradiction.
    + intros [H|[]]; discriminate.
    + intros [[|k] [H _]]; discriminate.
  - cbv zeta.
    set (w := expected_or_first (first :: rest) expected_width).
    destruct (forallb (fun line => get_width line =? w) (first :: rest))
      eqn:Hall; cbn [fst snd].
    + repeat split; try discriminate.
      * intros [H|[]]; discriminate.
      * intros [k H]. destruct H as (Hk & Hn & He & Ha & Hne & Hl). exfalso.
        rewrite forallb_forall in Hall.
        apply nth_error_In in Hk. apply Hall, Z.eqb_eq in Hk. congruence.
    + repeat split; try discriminate.
      * intros H. apply mismatches_spec in H.
        destruct H as [k H]. exists k.
        repeat split; tauto.
      * intros [k H]. apply mismatches_spec. exists k.
        repeat split; tauto.
      * intros _ _. apply mismatches_length.
Qed.

(** X3. Leaving the expected width out accepts exactly the inputs that some
    explicit expected width accepts. *)
Theorem validate_box_default_width (lines : list pystr) :
  fst (validate_box lines None) = true
  <-> exists w : Z, fst (validate_box lines (Some w)) = true.
Proof.
  rewrite validate_box_true_iff. split.
  - intros [Hne Hall]. exists (expected_or_first lines None).
    apply validate_box_true_iff. split; assumption.
  - intros [w H]. apply validate_box_true_iff in H as [Hne Hall].
    split; [exact Hne|]. destruct lines as [|first rest]; [contradiction|].
    cbn [expected_or_first hd] in *.
    rewrite (Forall_inv Hall). exact Hall.
Qed.

(** X4. Against one explicit width, two non-empty sequences of lines put one
    after the other are accepted exactly when both are. *)
Theorem validate_box_app (above below : list pystr) (w : Z) :
  above <> [] -> below <> [] ->
  fst (validate_box (above ++ below) (Some w))
  = fst (validate_box above (Some w)) && fst (validate_box below (Some w)).
Proof.
  intros Ha Hb. rewrite !validate_box_fst.
  destruct above as [|a above]; [contradiction|].
  destruct below as [|b below]; [contradiction|].
  cbn [app expected_or_first].
  change (a :: above ++ b :: below) with ((a :: above) ++ b :: below).
  apply forallb_app.
Qed.

End ValidationProperties.

(** ** Further properties: layout *)

Section LayoutProperties.

Context {platform : Platform}.

Lemma str_mul_add (c : codepoint) (a b : Z) :
  0 <= a -> 0 <= b -> str_mul [c] a ++ str_mul [c] b = str_mul [c] (a + b).
Proof.
  intros Ha Hb. rewrite !str_mul_char, <- repeat_app. f_equal. lia.
Qed.

Lemma nth_error_before_last {A : Type} (above below : list A) (x : A) :
  nth_error (above ++ x :: below)
    (length (above ++ x :: below) - length below - 1) = Some x.
Proof.
  rewrite length_app. simpl length.
  replace (length above + S (length below) - length below - 1)%nat
    with (length above + 0)%nat by lia.
  rewrite nth_error_app2 by lia.
  replace (length above + 0 - length above)%nat with 0%nat by lia.
  reflexivity.
Qed.

Lemma len_sub_empty (text : pystr) : len (Re.sub_empty text) <= len text.
Proof.
  remember (length text) as n eqn:Hn. revert text Hn.
  induction n as [n IH] using lt_wf_ind. intros text Hn.
  destruct text as [|c rest]; [rewrite Re.sub_empty_equation_1; lia|].
  rewrite Re.sub_empty_cons.
  destruct (Re.match_sgr (c :: rest)) as [after|] eqn:Hm.
  - apply Re.match_sgr_shorter in Hm.
    specialize (IH (length after) ltac:(lia) after eq_refl).
    unfold len in *. lia.
  - specialize (IH (length rest) ltac:(simpl in Hn; lia) rest eq_refl).
    rewrite !len_cons. lia.
Qed.

Lemma alignment_pads_other (self : TUIBox) (content alignment : pystr) :
  alignment <> py "center" -> alignment <> py "right" ->
  alignment_pads self content alignment = (0, slack self content).
Proof.
  intros Hc Hr. unfold alignment_pads.
  destruct (pystr_eqb alignment (py "center")) eqn:E1;
    [apply pystr_eqb_eq in E1; contradiction|].
  destruct (pystr_eqb alignment (py "right")) eqn:E2;
    [apply pystr_eqb_eq in E2; contradiction|].
  reflexivity.
Qed.

(** X5. For a box with non-negative fields and a border width of at most 1,
    render emits as many rows as there are content lines plus the vertical
    frame v_frame of calculate_dimensions. *)
Theorem render_rows_v_frame
  (self : TUIBox) (lines : list pystr) (alignment : pystr) :
  well_formed self -> border_width self <= 1 ->
  len (render self lines alignment)
  = len lines + snd (calculate_dimensions self).
Proof.
  intros Hwf Hb. rewrite render_shape. unfold border_rows.
  unfold well_formed in Hwf. cbn [calculate_dimensions snd].
  destruct (0 <? border_width self) eqn:E;
    [apply Z.ltb_lt in E | apply Z.ltb_ge in E];
    autorewrite with len; lia.
Qed.

(** X6. An alignment that is neither "center" nor "right" is treated as
    "left", whatever it is: the content comes first and the slack follows as
    spaces, and render gives the rows it gives for "left". *)
Theorem unknown_alignment_is_left
  (self : TUIBox) (lines : list pystr) (content alignment : pystr) :
  alignment <> py "center" -> alignment <> py "right" ->
  _render_content_line self content alignment
  = str_mul [SPACE] (margin_left self) ++ side_border self
    ++ str_mul [SPACE] (padding_left self)
    ++ content ++ str_mul [SPACE] (slack self content)
    ++ str_mul [SPACE] (padding_right self) ++ side_border self
  /\ render self lines alignment = render self lines (py "left").
Proof.
  intros Hc Hr.
  assert (Hrow : forall line,
            _render_content_line self line alignment
            = _render_content_line self line (py "left")).
  { intros line. rewrite !render_content_line_shape.
    rewrite (alignment_pads_other self line alignment Hc Hr).
    rewrite (alignment_pads_other self line (py "left"))
      by (intros H; discriminate H).
    reflexivity. }
  split.
  - rewrite render_content_line_shape.
    rewrite (alignment_pads_other self content alignment Hc Hr).
    cbn [fst snd]. change (str_mul [SPACE] 0) with (@nil codepoint).
    rewrite app_nil_r. repeat rewrite <- app_assoc. reflexivity.
  - rewrite !render_shape.
    rewrite (map_ext _ _ Hrow). reflexivity.
Qed.

(** X7. The alignment moves spaces and nothing else: the rows of one content
    line under two alignments have the same number of characters, the same
    visual width, and are the same row when the line leaves no slack. *)
Theorem alignment_keeps_row_size
  (self : TUIBox) (content alignment1 alignment2 : pystr) :
  len (_render_content_line self content alignment1)
  = len (_render_content_line self content alignment2)
  /\ (slack self content <= 0 ->
      _render_content_line self content alignment1
      = _render_content_line self content alignment2)
  /\ (frame_chars_narrow ->
      get_visual_width (_render_content_line self content alignment1)
      = get_visual_width (_render_content_line self content alignment2)).
Proof.
  pose proof (alignment_pads_total self content alignment1) as H1.
  pose proof (alignment_pads_total self content alignment2) as H2.
  split; [|split].
  - rewrite !render_content_line_shape. autorewrite with len. lia.
  - intros Hs. rewrite !render_content_line_shape.
    rewrite !(str_mul_nonpos _ (fst _)) by lia.
    rewrite !(str_mul_nonpos _ (snd _)) by lia. reflexivity.
  - intros Hn. rewrite !render_content_line_width by exact Hn. reflexivity.
Qed.

(** X8. render writes nothing of its own but spaces and, when the box has a
    border, box-drawing glyphs: every other character of a row comes from a
    content line. *)
Theorem render_characters
  (self : TUIBox) (lines : list pystr) (alignment row : pystr)
  (c : codepoint) :
  In row (render self lines alignment) -> In c row ->
  c = SPACE
  \/ (exists line, In line lines /\ In c line)
  \/ (0 < border_width self
      /\ In c [BOX_H; BOX_V; BOX_TL; BOX_TR; BOX_BL; BOX_BR]).
Proof.
  intros Hrow Hc. rewrite render_shape in Hrow.
  assert (Hspaces : forall n, In c (str_mul [SPACE] n) -> c = SPACE).
  { intros n H. rewrite str_mul_char in H. apply repeat_spec in H. exact H. }
  assert (Hside : In c (side_border self) ->
                  0 < border_width self /\ c = BOX_V).
  { unfold side_border. destruct (0 <? border_width self) eqn:E;
      [|contradiction]. apply Z.ltb_lt in E. intros [<-|[]]. tauto. }
  assert (Hempty : In c (_render_empty_line self) ->
                   c = SPACE
                   \/ (0 < border_width self /\ c = BOX_V)).
  { unfold _render_empty_line. destruct (0 <? border_width self) eqn:E.
    - apply Z.ltb_lt in E. rewrite !in_app_iff. simpl.
      intros [H|[[H|[]]|[H|[H|[]]]]]; eauto.
    - intros H; left; eapply Hspaces, H. }
  assert (Hborder : forall l r,
            In l [BOX_TL; BOX_BL] -> In r [BOX_TR; BOX_BR] ->
            In row (border_rows self l r) ->
            c = SPACE
            \/ (0 < border_width self
                /\ In c [BOX_H; BOX_V; BOX_TL; BOX_TR; BOX_BL; BOX_BR])).
  { intros l r Hl Hr. unfold border_rows.
    destruct (0 <? border_width self) eqn:E; [|contradiction].
    apply Z.ltb_lt in E. intros [<-|[]]. revert Hc.
    rewrite !in_app_iff. intros [H|[H|[H|H]]].
    - left; eapply Hspaces, H.
    - right. split; [exact E|]. destruct H as [<-|[]].
      simpl in Hl |- *. tauto.
    - right. split; [exact E|]. rewrite str_mul_char in H.
      apply repeat_spec in H. subst c. left; reflexivity.
    - right. split; [exact E|]. destruct H as [<-|[]].
      simpl in Hr |- *. tauto. }
  repeat rewrite in_app_iff in Hrow.
  destruct Hrow as [H|[[H|[H|[H|[H|H]]]]|H]].
  - apply repeat_spec in H. subst row. contradiction.
  - destruct (Hborder BOX_TL BOX_TR) as [E|E]; simpl; auto.
  - apply repeat_spec in H. subst row.
    destruct (Hempty Hc) as [E|[E ->]]; [auto|]. right; right. simpl; tauto.
  - apply in_map_iff in H. destruct H as [line [<- Hline]].
    rewrite render_content_line_shape in Hc.
    repeat rewrite in_app_iff in Hc.
    destruct Hc as [[H|[H|[H|H]]]|[H|[H|[H|H]]]];
      try (left; eapply Hspaces, H);
      try (destruct (Hside H) as [E ->]; right; right; simpl; tauto).
    right; left. exists line. split; assumption.
  - apply repeat_spec in H. subst row.
    destruct (Hempty Hc) as [E|[E ->]]; [auto|]. right; right. simpl; tauto.
  - destruct (Hborder BOX_BL BOX_BR) as [E|E]; simpl; auto.
  - apply repeat_spec in H. subst row. contradiction.
Qed.

Lemma top_border_in_render
  (self : TUIBox) (lines : list pystr) (alignment : pystr) :
  0 < border_width self ->
  In (str_mul [SPACE] (margin_left self) ++ [BOX_TL]
      ++ str_mul [BOX_H] (get_interior_width self) ++ [BOX_TR])
    (render self lines alignment).
Proof.
  intros Hb. apply Z.ltb_lt in Hb.
  rewrite render_shape. unfold border_rows. rewrite Hb.
  rewrite !in_app_iff. right; left; left. left; reflexivity.
Qed.

(** X9. In a box with a border, the row after the top margin rows is the top
    border and the row before the bottom margin rows is the bottom border:
    the left margin, a corner, interior_width horizontal glyphs and a
    corner. *)
Theorem render_border_rows
  (self : TUIBox) (lines : list pystr) (alignment : pystr) :
  0 < border_width self ->
  nth_error (render self lines alignment) (Z.to_nat (margin_top self))
  = Some (repeat SPACE (Z.to_nat (margin_left self)) ++ [BOX_TL]
          ++ repeat BOX_H (Z.to_nat (get_interior_width self)) ++ [BOX_TR])
  /\ nth_error (render self lines alignment)
       (length (render self lines alignment)
        - Z.to_nat (margin_bottom self) - 1)
     = Some (repeat SPACE (Z.to_nat (margin_left self)) ++ [BOX_BL]
             ++ repeat BOX_H (Z.to_nat (get_interior_width self)) ++ [BOX_BR]).
Proof.
  intros Hb. apply Z.ltb_lt in Hb. rewrite <- !str_mul_char. split.
  - rewrite render_shape. unfold border_rows. rewrite Hb.
    rewrite nth_error_app2 by (rewrite repeat_length; lia).
    rewrite repeat_length, Nat.sub_diag. reflexivity.
  - assert (Heq : exists above,
              render self lines alignment
              = above
                ++ (str_mul [SPACE] (margin_left self) ++ [BOX_BL]
                    ++ str_mul [BOX_H] (get_interior_width self) ++ [BOX_BR])
                :: repeat [] (Z.to_nat (margin_bottom self))).
    { rewrite render_shape. unfold border_rows. rewrite Hb.
      exists (repeat [] (Z.to_nat (margin_top self))
              ++ [str_mul [SPACE] (margin_left self) ++ [BOX_TL]
                  ++ str_mul [BOX_H] (get_interior_width self) ++ [BOX_TR]]
              ++ repeat (_render_empty_line self)
                   (Z.to_nat (padding_top self))
              ++ map (fun line => _render_content_line self line alignment)
                   lines
              ++ repeat (_render_empty_line self)
                   (Z.to_nat (padding_bottom self))).
      repeat rewrite <- app_assoc. reflexivity. }
    destruct Heq as [above ->].
    pose proof (nth_error_before_last above
                  (repeat [] (Z.to_nat (margin_bottom self)))
                  (str_mul [SPACE] (margin_left self) ++ [BOX_BL]
                   ++ str_mul [BOX_H] (get_interior_width self) ++ [BOX_BR]))
      as H.
    rewrite (repeat_length (@nil codepoint)) in H. exact H.
Qed.

(** X10. Without the wcwidth package, visual widths add up across a
    boundary that no escape sequence can bridge: when the first text holds no
    ESC, or the second text holds none of the characters of an escape
    sequence (ESC, the bracket, digits, the semicolon, m), the visual width
    of the two put together is the sum of their visual widths. *)
Theorem visual_width_additive (a b : pystr) :
  HAS_WCWIDTH = false ->
  ~ In ESC a \/ Forall inert b ->
  get_visual_width (a ++ b) = get_visual_width a + get_visual_width b.
Proof.
  intros Hw Hab. unfold get_visual_width. rewrite Hw.
  destruct Hab as [Ha | Hb].
  - rewrite sub_empty_app_l by exact Ha.
    rewrite (sub_empty_plain a) by exact Ha. apply len_app.
  - rewrite sub_empty_app_r by exact Hb.
    rewrite (sub_empty_plain b) by (apply inert_no_esc, Hb). apply len_app.
Qed.

(** X11. On its fallback path (the package missing, or a control character
    in the text left after stripping) get_visual_width never exceeds the
    number of characters of the text. *)
Theorem visual_width_fallback_bound (text : pystr) :
  HAS_WCWIDTH = false \/ wcswidth (Re.sub_empty text) < 0 ->
  get_visual_width text <= len text.
Proof.
  intros H. pose proof (len_sub_empty text) as Hlen.
  unfold get_visual_width. destruct HAS_WCWIDTH eqn:Hw; [|exact Hlen].
  destruct H as [H|H]; [discriminate|].
  cbv zeta. apply Z.leb_gt in H. rewrite H. exact Hlen.
Qed.

(** X12. In a box with non-negative fields that has a border or no right
    margin, an empty content line is rendered as a padding row under every
    alignment. *)
Theorem empty_line_is_padding_row (self : TUIBox) (alignment : pystr) :
  well_formed self ->
  0 < border_width self \/ margin_right self = 0 ->
  _render_content_line self [] alignment = _render_empty_line self.
Proof.
  intros Hwf Hb. rewrite render_content_line_shape.
  assert (Hs : slack self [] = content_width self).
  { unfold slack, get_visual_width. rewrite Re.sub_empty_equation_1.
    destruct HAS_WCWIDTH; cbn; lia. }
  assert (Hpads : str_mul [SPACE] (fst (alignment_pads self [] alignment))
                  ++ str_mul [SPACE] (snd (alignment_pads self [] alignment))
                  = str_mul [SPACE] (content_width self)).
  { unfold well_formed in Hwf. unfold alignment_pads. rewrite Hs.
    destruct (pystr_eqb alignment (py "center"));
      [|destruct (pystr_eqb alignment (py "right"))]; cbn [fst snd].
    - rewrite str_mul_add;
        [f_equal; lia | Z.div_mod_to_equations; lia
        | Z.div_mod_to_equations; lia].
    - apply app_nil_r.
    - reflexivity. }
  cbn [app]. repeat rewrite <- app_assoc.
  rewrite (app_assoc (str_mul [SPACE] (fst _))), Hpads.
  unfold _render_empty_line, side_border, get_interior_width.
  unfold well_formed in Hwf.
  destruct (0 <? border_width self) eqn:E.
  - cbn [app]. do 2 f_equal.
    rewrite (app_assoc (str_mul [SPACE] (padding_left self))), str_mul_add
      by lia.
    rewrite (app_assoc (str_mul [SPACE] (padding_left self + content_width self))).
    rewrite str_mul_add by lia. reflexivity.
  - apply Z.ltb_ge in E. cbn [app]. rewrite !app_nil_r.
    rewrite !app_assoc. rewrite !str_mul_add by lia.
    f_equal. lia.
Qed.

(** validate_box rejects, against every expected width and against none, a
    sequence that holds two lines of different widths. *)
Lemma validate_box_two_widths
  (lines : list pystr) (expected_width : option Z) (row1 row2 : pystr) :
  In row1 lines -> In row2 lines -> get_width row1 <> get_width row2 ->
  fst (validate_box lines expected_width) = false.
Proof.
  intros H1 H2 Hne.
  destruct (fst (validate_box lines expected_width)) eqn:Hv; [|reflexivity].
  apply validate_box_true_iff in Hv as [_ Hall].
  rewrite Forall_forall in Hall.
  rewrite (Hall _ H1), (Hall _ H2) in Hne. contradiction.
Qed.

Lemma render_overflow_rejected
  (self : TUIBox) (lines : list pystr) (alignment line : pystr)
  (expected_width : option Z) :
  frame_chars_narrow -> well_formed self -> 0 < border_width self ->
  In line lines -> Re.sub_empty line = line ->
  content_width self < get_visual_width line ->
  fst (validate_box (render self lines alignment) expected_width) = false.
Proof.
  intros Hn Hwf Hb Hin Hclean Hover.
  pose proof (top_border_in_render self lines alignment Hb) as Htop.
  assert (Hrow : In (_render_content_line self line alignment)
                   (render self lines alignment)).
  { rewrite render_content_rows, !in_app_iff. right; left.
    apply in_map_iff. exists line. split; [reflexivity | exact Hin]. }
  apply (validate_box_two_widths _ _ _ _ Htop Hrow).
  set (top := str_mul [SPACE] (margin_left self) ++ [BOX_TL]
              ++ str_mul [BOX_H] (get_interior_width self) ++ [BOX_TR]).
  assert (Hframe : Forall is_frame_char top).
  { unfold top.
    repeat first [apply Forall_app; split | apply spaces_frame
                 | apply Forall_cons | apply Forall_nil
                 | apply str_mul_char_all ];
      unfold is_frame_char, frame_chars; simpl; tauto. }
  rewrite (get_width_narrow top) by (apply frame_text_narrow; assumption).
  replace (get_width (_render_content_line self line alignment))
    with (get_visual_width (_render_content_line self line alignment))
    by (rewrite get_visual_width_sub, render_content_line_clean
          by exact Hclean; reflexivity).
  rewrite render_content_line_width by exact Hn.
  unfold top. autorewrite with len. rewrite len_side_border.
  apply Z.ltb_lt in Hb. rewrite Hb.
  unfold slack, well_formed, get_interior_width in *. lia.
Qed.

(** X13. Overflow does not pass validation: in a box with non-negative
    fields and a border, when a content line without escape sequence is
    wider than content_width, validate_box rejects the output of render,
    whatever the expected width and also without one. *)
Theorem overflow_fails_validation
  (self : TUIBox) (lines : list pystr) (alignment line : pystr)
  (expected_width : option Z) :
  frame_chars_narrow -> well_formed self -> 0 < border_width self ->
  In line lines -> Re.sub_empty line = line ->
  content_width self < get_visual_width line ->
  fst (validate_box (render self lines alignment) expected_width) = false.
Proof.
  intros Hn Hwf Hb Hin Hclean Hover.
  exact (render_overflow_rejected self lines alignment line expected_width
           Hn Hwf Hb Hin Hclean Hover).
Qed.

End LayoutProperties.

(** ** Further properties: the documentation examples *)

Section ExampleProperties.

Context {platform : Platform}.

Lemma str_join_snoc (sep : pystr) (parts : list pystr) (last : pystr) :
  parts <> [] ->
  str_join sep (parts ++ [last]) = str_join sep parts ++ sep ++ last.
Proof.
  induction parts as [|a [|b parts] IH]; intros Hne; [contradiction| |].
  - reflexivity.
  - change (str_join sep ((a :: b :: parts) ++ [last]))
      with (a ++ sep ++ str_join sep ((b :: parts) ++ [last])).
    rewrite IH by discriminate.
    change (str_join sep (a :: b :: parts))
      with (a ++ sep ++ str_join sep (b :: parts)).
    repeat rewrite <- app_assoc. reflexivity.
Qed.

Lemma snoc_not_nil {A : Type} (l : list A) (x : A) : l ++ [x] <> [].
Proof. destruct l; discriminate. Qed.

(** The text of [generate_example] ends with the verdict line and the
    closing fence. *)
Lemma generate_example_tail (name : pystr) (box : TUIBox) (lines : list pystr) :
  let check :=
    validate_box (render box lines (py "left")) (Some (get_total_width box)) in
  exists before : pystr,
    generate_example name box lines
    = (before ++ [NEWLINE]
       ++ (if fst check then verdict_ok (get_total_width box)
           else verdict_error)
       ++ [NEWLINE] ++ py "```" ++ [NEWLINE],
       snd check).
Proof.
  cbv zeta. unfold generate_example. cbn [calculate_dimensions].
  destruct (validate_box (render box lines (py "left"))
              (Some (get_total_width box))) as [valid printed].
  cbv beta iota zeta. cbn [fst snd].
  destruct valid; cbv iota;
    match goal with
    | |- context [str_join _ (((?p ++ [?v]) ++ [?f]) ++ [?e])] =>
        rewrite (str_join_snoc _ ((p ++ [v]) ++ [f]) e) by apply snoc_not_nil;
        rewrite (str_join_snoc _ (p ++ [v]) f) by apply snoc_not_nil;
        rewrite (str_join_snoc _ p v) by apply snoc_not_nil;
        exists (str_join [NEWLINE] p)
    end;
    rewrite (app_nil_r [NEWLINE]); repeat rewrite <- app_assoc; reflexivity.
Qed.

(** A box whose rows all fit passes the check of [generate_example]. *)
Lemma render_accepted_at_total_width
  (self : TUIBox) (lines : list pystr) (alignment : pystr) :
  frame_chars_narrow -> well_formed self ->
  border_width self <= 1 -> margin_right self = 0 ->
  margin_top self = 0 -> margin_bottom self = 0 ->
  Forall (fun line => get_visual_width line <= content_width self
                      /\ Re.sub_empty line = line) lines ->
  render self lines alignment <> [] ->
  validate_box (render self lines alignment) (Some (get_total_width self))
  = (true, [AllLinesCorrect (len (render self lines alignment))
              (get_total_width self)]).
Proof.
  intros Hn Hwf Hb Hmr Hmt Hmb Hlines Hne.
  assert (Hfit : Forall (fun line => get_visual_width line <= content_width self)
                   lines)
    by (eapply Forall_impl; [|exact Hlines]; intros l [H _]; exact H).
  assert (Hclean : Forall (fun line => Re.sub_empty line = line) lines)
    by (eapply Forall_impl; [|exact Hlines]; intros l [_ H]; exact H).
  assert (Hrender : render self lines alignment = box_rows self lines alignment).
  { rewrite render_box_rows, Hmt, Hmb. simpl. apply app_nil_r. }
  rewrite Hrender in *.
  assert (Htotal : row_width self = get_total_width self).
  { unfold row_width, get_total_width, get_interior_width.
    cbn [calculate_dimensions]. rewrite len_side_border.
    unfold well_formed in Hwf.
    destruct (0 <? border_width self) eqn:E;
      [apply Z.ltb_lt in E | apply Z.ltb_ge in E]; lia. }
  assert (Hw : forallb (fun row => get_width row =? get_total_width self)
                 (box_rows self lines alignment) = true).
  { pose proof (box_rows_width self lines alignment Hn Hwf (or_intror Hmr) Hfit)
      as H1.
    pose proof (box_rows_clean self lines alignment Hn Hwf (or_intror Hmr)
                  Hclean) as H2.
    rewrite Forall_forall in H1, H2. apply forallb_forall. intros row Hrow.
    apply Z.eqb_eq. rewrite <- Htotal, <- (H1 row Hrow).
    rewrite get_visual_width_sub, (H2 row Hrow). reflexivity. }
  rewrite validate_box_spec.
  destruct (box_rows self lines alignment) as [|first rest]; [contradiction|].
  cbv zeta. cbn [expected_or_first]. rewrite Hw. reflexivity.
Qed.

(** X14. generate_example reports success for a box that fits: for a box
    with non-negative fields, a border width of at most 1 and no margin on
    the right, on top or below, and content lines that do not overflow and
    hold no escape sequence, the text ends with the line saying that all
    lines have total_width characters, followed by the closing fence, and
    validate_box has printed its summary for the rendered rows. *)
Theorem generate_example_reports_success
  (name : pystr) (box : TUIBox) (lines : list pystr) :
  frame_chars_narrow -> well_formed box ->
  border_width box <= 1 -> margin_right box = 0 ->
  margin_top box = 0 -> margin_bottom box = 0 ->
  Forall (fun line => get_visual_width line <= content_width box
                      /\ Re.sub_empty line = line) lines ->
  render box lines (py "left") <> [] ->
  exists before : pystr,
    generate_example name box lines
    = (before ++ [NEWLINE] ++ verdict_ok (get_total_width box)
       ++ [NEWLINE] ++ py "```" ++ [NEWLINE],
       [AllLinesCorrect (len (render box lines (py "left")))
          (get_total_width box)]).
Proof.
  intros Hn Hwf Hb Hmr Hmt Hmb Hlines Hne.
  destruct (generate_example_tail name box lines) as [before Heq].
  rewrite (render_accepted_at_total_width box lines (py "left")
             Hn Hwf Hb Hmr Hmt Hmb Hlines Hne) in Heq.
  exists before. exact Heq.
Qed.

(** X15. generate_example reports the error for a box that overflows: for a
    box with non-negative fields and a border, when a content line without
    escape sequence is wider than content_width, the text ends with the
    error line followed by the closing fence. *)
Theorem generate_example_reports_overflow
  (name : pystr) (box : TUIBox) (lines : list pystr) (line : pystr) :
  frame_chars_narrow -> well_formed box -> 0 < border_width box ->
  In line lines -> Re.sub_empty line = line ->
  content_width box < get_visual_width line ->
  exists before : pystr,
    fst (generate_example name box lines)
    = before ++ [NEWLINE] ++ verdict_error
      ++ [NEWLINE] ++ py "```" ++ [NEWLINE].
Proof.
  intros Hn Hwf Hb Hin Hclean Hover.
  destruct (generate_example_tail name box lines) as [before Heq].
  rewrite (render_overflow_rejected box lines (py "left") line
             (Some (get_total_width box)) Hn Hwf Hb Hin Hclean Hover) in Heq.
  exists before. rewrite Heq. reflexivity.
Qed.

End ExampleProperties.

(** ** The model at work: concrete boxes *)

#[local] Existing Instance with_wcwidth.

Lemma table_frame_chars_narrow : frame_chars_narrow.
Proof. unfold frame_chars_narrow, frame_chars. repeat constructor. Qed.

Lemma not_Forall_nth {A : Type} (P : A -> Prop) (l : list A) (i : nat) (x : A) :
  nth_error l i = Some x -> ~ P x -> ~ Forall P l.
Proof.
  intros Hi Hx Hall. rewrite Forall_forall in Hall.
  apply Hx, Hall. eapply nth_error_In, Hi.
Qed.

Example render_padded_box :
  render padded_box [py "Hi"] (py "left")
  = [ [BOX_TL; BOX_H; BOX_H; BOX_H; BOX_H; BOX_H; BOX_H; BOX_TR];
      [BOX_V] ++ py "      " ++ [BOX_V];
      [BOX_V] ++ py "  Hi  " ++ [BOX_V];
      [BOX_V] ++ py "      " ++ [BOX_V];
      [BOX_BL; BOX_H; BOX_H; BOX_H; BOX_H; BOX_H; BOX_H; BOX_BR] ].
Proof. reflexivity. Qed.

Example validate_mismatch :
  validate_box [[BOX_V] ++ py "ab" ++ [BOX_V]; [BOX_V] ++ py "abc" ++ [BOX_V]]
    None
  = (false,
     [LineMismatch 2 4 5 ([BOX_V] ++ py "abc" ++ [BOX_V]) 5]).
Proof. reflexivity. Qed.

Example validate_empty (expected_width : option Z) :
  validate_box [] expected_width = (false, [NoLinesToValidate]).
Proof. reflexivity. Qed.

(** C1 fails as stated: a margin row is an empty string; a border wider than
    one column is drawn one column wide; the right margin is not drawn
    beside a content row. *)
Lemma render_rows_total_width_counterexample :
  (let box := mkTUIBox 2 2 2 0 0 1 0 0 1 0 in
   well_formed box
   /\ Forall (fun line => get_visual_width line <= content_width box) [py "Hi"]
   /\ ~ Forall (fun row => get_visual_width row = get_total_width box)
          (render box [py "Hi"] (py "left")))
  /\ (let box := mkTUIBox 2 2 2 0 0 2 0 0 0 0 in
      well_formed box
      /\ Forall (fun line => get_visual_width line <= content_width box)
           [py "Hi"]
      /\ ~ Forall (fun row => get_visual_width row = get_total_width box)
             (render box [py "Hi"] (py "left")))
  /\ (let box := mkTUIBox 2 2 2 0 0 1 0 1 0 0 in
      well_formed box
      /\ Forall (fun line => get_visual_width line <= content_width box)
           [py "Hi"]
      /\ ~ Forall (fun row => get_visual_width row = get_total_width box)
             (render box [py "Hi"] (py "left"))).
Proof.
  split; [|split]; cbv zeta;
    (split; [unfold well_formed; cbn; lia|]);
    (split; [repeat constructor; vm_compute; discriminate|]).
  - apply (not_Forall_nth _ _ 0%nat []); [reflexivity|].
    vm_compute. discriminate.
  - apply (not_Forall_nth _ _ 1%nat ([BOX_V] ++ py "  Hi  " ++ [BOX_V]));
      [reflexivity|]. vm_compute. discriminate.
  - apply (not_Forall_nth _ _ 1%nat ([BOX_V] ++ py "  Hi  " ++ [BOX_V]));
      [reflexivity|]. vm_compute. discriminate.
Qed.

(** C2 fails as stated: a box without border, padding or margin around no
    line renders to nothing, which validate_box rejects; a margin row has
    width 0; validate_box counts the characters of an escape sequence; the
    right margin of a borderless box is drawn in the padding rows only. *)
Lemma validate_render_round_trip_counterexample :
  (let box := mkTUIBox 2 0 0 0 0 0 0 0 0 0 in
   well_formed box
   /\ fst (validate_box (render box [] (py "left")) None) = false)
  /\ (let box := mkTUIBox 2 2 2 0 0 1 0 0 1 0 in
      well_formed box
      /\ Forall (fun line => get_visual_width line <= content_width box)
           [py "Hi"]
      /\ fst (validate_box (render box [py "Hi"] (py "left")) None) = false)
  /\ (let box := mkTUIBox 2 2 2 0 0 1 0 0 0 0 in
      well_formed box
      /\ Forall (fun line => get_visual_width line <= content_width box)
           [red_hi]
      /\ fst (validate_box (render box [red_hi] (py "left")) None) = false)
  /\ (let box := mkTUIBox 2 2 2 1 0 0 0 1 0 0 in
      well_formed box
      /\ Forall (fun line => get_visual_width line <= content_width box)
           [py "Hi"]
      /\ fst (validate_box (render box [py "Hi"] (py "left")) None) = false).
Proof.
  repeat split; try (unfold well_formed; simpl; lia);
    try (repeat constructor; vm_compute; discriminate).
Qed.

(** C7 fails as stated: with a right margin, or a border wider than one
    column, the row of an overflowing line is not wider than total_width by
    the overflow. *)
Lemma overflow_passes_through_counterexample :
  (let box := mkTUIBox 2 2 2 0 0 1 0 3 0 0 in
   well_formed box
   /\ content_width box < get_visual_width (py "Hello")
   /\ get_visual_width (_render_content_line box (py "Hello") (py "left"))
      <> get_total_width box
         + (get_visual_width (py "Hello") - content_width box))
  /\ (let box := mkTUIBox 2 2 2 0 0 2 0 0 0 0 in
      well_formed box
      /\ content_width box < get_visual_width (py "Hello")
      /\ get_visual_width (_render_content_line box (py "Hello") (py "left"))
         <> get_total_width box
            + (get_visual_width (py "Hello") - content_width box)).
Proof.
  repeat split; try (unfold well_formed; simpl; lia);
    try (vm_compute; discriminate); vm_compute; reflexivity.
Qed.

(** C4. validate_box measures its lines with a helper that does not drop
    escape sequences, where the measurer of the box does: two lines of visual
    width 2 are reported as a mismatch, the second one counted as 11 columns,
    with and without the wcwidth package. *)
Theorem validate_box_counts_escapes :
  Forall (fun line => @get_visual_width with_wcwidth line = 2) [py "Hi"; red_hi]
  /\ Forall (fun line => @get_visual_width without_wcwidth line = 2)
       [py "Hi"; red_hi]
  /\ @validate_box with_wcwidth [py "Hi"; red_hi] None
     = (false, [LineMismatch 2 2 11 red_hi 11])
  /\ @validate_box without_wcwidth [py "Hi"; red_hi] None
     = (false, [LineMismatch 2 2 11 red_hi 11]).
Proof. repeat split; repeat constructor. Qed.

(** ** The theorems at concrete boxes *)

Lemma render_rows_total_width_witness :
  well_formed padded_box
  /\ Forall (fun line => get_visual_width line <= content_width padded_box)
       [py "Hi"]
  /\ exists rows : list pystr,
       render padded_box [py "Hi"] (py "center")
       = repeat [] (Z.to_nat (margin_top padded_box)) ++ rows
         ++ repeat [] (Z.to_nat (margin_bottom padded_box))
       /\ Forall (fun row => get_visual_width row = get_total_width padded_box)
            rows
       /\ get_visual_width [] = 0.
Proof.
  assert (Hwf : well_formed padded_box) by (unfold well_formed; simpl; lia).
  assert (Hfit : Forall (fun line =>
                           get_visual_width line <= content_width padded_box)
                   [py "Hi"])
    by (repeat constructor; vm_compute; discriminate).
  split; [exact Hwf|]. split; [exact Hfit|].
  apply (render_rows_total_width padded_box [py "Hi"] (py "center")
           table_frame_chars_narrow Hwf);
    [simpl; lia | reflexivity | exact Hfit].
Defined.

Lemma validate_render_round_trip_witness :
  well_formed padded_box
  /\ Forall (fun line => get_visual_width line <= content_width padded_box
                         /\ Re.sub_empty line = line) [py "Hi"]
  /\ render padded_box [py "Hi"] (py "right") <> []
  /\ fst (validate_box (render padded_box [py "Hi"] (py "right")) None) = true.
Proof.
  assert (Hwf : well_formed padded_box) by (unfold well_formed; simpl; lia).
  assert (Hlines : Forall (fun line =>
                             get_visual_width line <= content_width padded_box
                             /\ Re.sub_empty line = line) [py "Hi"])
    by (repeat constructor; vm_compute; discriminate).
  assert (Hne : render padded_box [py "Hi"] (py "right") <> [])
    by (vm_compute; discriminate).
  split; [exact Hwf|]. split; [exact Hlines|]. split; [exact Hne|].
  apply (validate_render_round_trip padded_box [py "Hi"] (py "right")
           table_frame_chars_narrow Hwf);
    [reflexivity | reflexivity | left; simpl; lia | exact Hlines | exact Hne].
Defined.

Lemma center_alignment_split_witness :
  slack narrow_box (py "Hi") = 3
  /\ _render_content_line narrow_box (py "Hi") (py "center")
     = [BOX_V] ++ py " Hi  " ++ [BOX_V].
Proof.
  split; [reflexivity|].
  destruct (center_alignment_split narrow_box (py "Hi")) as [Hrow _].
  - vm_compute. discriminate.
  - rewrite Hrow. reflexivity.
Defined.

Lemma overflow_passes_through_witness :
  content_width narrow_box < get_visual_width (py "overflow")
  /\ _render_content_line narrow_box (py "overflow") (py "center")
     = [BOX_V] ++ py "overflow" ++ [BOX_V]
  /\ get_visual_width
       (_render_content_line narrow_box (py "overflow") (py "center"))
     = get_total_width narrow_box + 3.
Proof.
  assert (Hover : content_width narrow_box < get_visual_width (py "overflow"))
    by reflexivity.
  split; [exact Hover|].
  destruct (overflow_passes_through narrow_box (py "overflow") (py "center")
              Hover) as [Hrow Hwidth].
  split; [rewrite Hrow; reflexivity|].
  rewrite (Hwidth table_frame_chars_narrow);
    [reflexivity | unfold well_formed; simpl; lia | simpl; lia | reflexivity].
Defined.

Lemma content_preserved_verbatim_witness :
  nth_error [py "top"; red_hi] 1 = Some red_hi
  /\ exists before after : pystr,
       nth_error (render padded_box [py "top"; red_hi] (py "left"))
         (first_content_row padded_box + 1)
       = Some (before ++ red_hi ++ after)
       /\ Forall (fun c => c = SPACE \/ c = BOX_V) (before ++ after)
       /\ len before + len after
          = Z.max 0 (margin_left padded_box)
            + 2 * len (side_border padded_box)
            + Z.max 0 (padding_left padded_box)
            + Z.max 0 (padding_right padded_box)
            + Z.max 0 (content_width padded_box - get_visual_width red_hi).
Proof.
  split; [reflexivity|].
  apply (content_preserved_verbatim padded_box [py "top"; red_hi] (py "left")
           1 red_hi).
  reflexivity.
Defined.

Lemma render_row_count_witness :
  well_formed padded_box
  /\ len (render padded_box [py "Hi"] (py "left")) = 5.
Proof.
  assert (Hwf : well_formed padded_box) by (unfold well_formed; simpl; lia).
  split; [exact Hwf|].
  rewrite (render_row_count padded_box [py "Hi"] (py "left") Hwf).
  reflexivity.
Defined.


Lemma visual_width_nonneg_fallback_witness :
  wcswidth (Re.sub_empty (red_hi ++ [9%N])) < 0
  /\ get_visual_width (red_hi ++ [9%N]) = 3.
Proof.
  assert (Hneg : wcswidth (Re.sub_empty (red_hi ++ [9%N])) < 0) by reflexivity.
  split; [exact Hneg|].
  destruct (visual_width_nonneg_fallback (red_hi ++ [9%N])) as [_ [Hfall _]].
  rewrite (Hfall Hneg). reflexivity.
Defined.

(** ** The further properties at concrete boxes *)

Lemma validate_box_app_witness :
  fst (validate_box ([py "ab"] ++ [py "cd"; py "e"]) (Some 2))
  = fst (validate_box [py "ab"] (Some 2))
    && fst (validate_box [py "cd"; py "e"] (Some 2)).
Proof.
  apply (validate_box_app [py "ab"] [py "cd"; py "e"] 2); discriminate.
Defined.

Lemma render_rows_v_frame_witness :
  well_formed padded_box
  /\ len (render padded_box [py "Hi"] (py "left"))
     = len [py "Hi"] + snd (calculate_dimensions padded_box).
Proof.
  assert (Hwf : well_formed padded_box) by (unfold well_formed; simpl; lia).
  split; [exact Hwf|].
  apply (render_rows_v_frame padded_box [py "Hi"] (py "left") Hwf).
  simpl; lia.
Defined.

Lemma unknown_alignment_is_left_witness :
  _render_content_line narrow_box (py "Hi") (py "justify")
  = [BOX_V] ++ py "Hi   " ++ [BOX_V]
  /\ render narrow_box [py "Hi"] (py "justify")
     = render narrow_box [py "Hi"] (py "left").
Proof.
  destruct (unknown_alignment_is_left narrow_box [py "Hi"] (py "Hi")
              (py "justify")) as [Hrow Hrender];
    [discriminate | discriminate |].
  split; [rewrite Hrow; reflexivity | exact Hrender].
Defined.

Lemma render_characters_witness :
  In ([BOX_V] ++ py "Hi   " ++ [BOX_V])
    (render narrow_box [py "Hi"] (py "left"))
  /\ (72%N = SPACE
      \/ (exists line, In line [py "Hi"] /\ In 72%N line)
      \/ (0 < border_width narrow_box
          /\ In 72%N [BOX_H; BOX_V; BOX_TL; BOX_TR; BOX_BL; BOX_BR])).
Proof.
  assert (Hrow : In ([BOX_V] ++ py "Hi   " ++ [BOX_V])
                   (render narrow_box [py "Hi"] (py "left")))
    by (right; left; reflexivity).
  split; [exact Hrow|].
  apply (render_characters narrow_box [py "Hi"] (py "left")
           ([BOX_V] ++ py "Hi   " ++ [BOX_V]) 72%N Hrow).
  right; left; reflexivity.
Defined.

Lemma render_border_rows_witness :
  nth_error (render padded_box [py "Hi"] (py "left")) 0
  = Some [BOX_TL; BOX_H; BOX_H; BOX_H; BOX_H; BOX_H; BOX_H; BOX_TR]
  /\ nth_error (render padded_box [py "Hi"] (py "left")) 4
     = Some [BOX_BL; BOX_H; BOX_H; BOX_H; BOX_H; BOX_H; BOX_H; BOX_BR].
Proof.
  apply (render_border_rows padded_box [py "Hi"] (py "left")).
  reflexivity.
Defined.

Lemma visual_width_additive_witness :
  @get_visual_width without_wcwidth (red_hi ++ py "  ")
  = @get_visual_width without_wcwidth red_hi
    + @get_visual_width without_wcwidth (py "  ").
Proof.
  apply (@visual_width_additive without_wcwidth red_hi (py "  "));
    [reflexivity|].
  right. repeat constructor; discriminate.
Defined.

Lemma visual_width_fallback_bound_witness :
  wcswidth (Re.sub_empty (red_hi ++ [9%N])) < 0
  /\ get_visual_width (red_hi ++ [9%N]) <= len (red_hi ++ [9%N]).
Proof.
  assert (Hneg : wcswidth (Re.sub_empty (red_hi ++ [9%N])) < 0) by reflexivity.
  split; [exact Hneg|].
  apply (visual_width_fallback_bound (red_hi ++ [9%N])). right. exact Hneg.
Defined.

Lemma empty_line_is_padding_row_witness :
  well_formed padded_box
  /\ _render_content_line padded_box [] (py "center")
     = _render_empty_line padded_box.
Proof.
  assert (Hwf : well_formed padded_box) by (unfold well_formed; simpl; lia).
  split; [exact Hwf|].
  apply (empty_line_is_padding_row padded_box (py "center") Hwf).
  left. reflexivity.
Defined.

Lemma overflow_fails_validation_witness :
  content_width narrow_box < get_visual_width (py "overflow")
  /\ fst (validate_box
            (render narrow_box [py "fits"; py "overflow"] (py "left")) None)
     = false.
Proof.
  assert (Hover : content_width narrow_box < get_visual_width (py "overflow"))
    by reflexivity.
  split; [exact Hover|].
  apply (overflow_fails_validation narrow_box [py "fits"; py "overflow"]
           (py "left") (py "overflow") None table_frame_chars_narrow);
    [unfold well_formed; simpl; lia | reflexivity | right; left; reflexivity
    | reflexivity | exact Hover].
Defined.

Lemma generate_example_reports_success_witness :
  exists before : pystr,
    generate_example (py "Caja") padded_box [py "Hi"]
    = (before ++ [NEWLINE] ++ verdict_ok 8 ++ [NEWLINE] ++ py "```"
       ++ [NEWLINE],
       [AllLinesCorrect 5 8]).
Proof.
  apply (generate_example_reports_success (py "Caja") padded_box [py "Hi"]
           table_frame_chars_narrow);
    [unfold well_formed; simpl; lia | simpl; lia | reflexivity | reflexivity
    | reflexivity | repeat constructor; vm_compute; discriminate
    | vm_compute; discriminate].
Defined.

Lemma generate_example_reports_overflow_witness :
  exists before : pystr,
    fst (generate_example (py "Caja") narrow_box [py "overflow"])
    = before ++ [NEWLINE] ++ verdict_error ++ [NEWLINE] ++ py "```"
      ++ [NEWLINE].
Proof.
  apply (generate_example_reports_overflow (py "Caja") narrow_box
           [py "overflow"] (py "overflow") table_frame_chars_narrow);
    [unfold well_formed; simpl; lia | reflexivity | left; reflexivity
    | reflexivity | reflexivity].
Defined.
